(** * Yamaha / Flic integration: a shallow embedding of
      [yamaha-flic-integration.js] and the properties of its handlers.

    The script reacts to two kinds of events (action messages and twist
    updates of virtual devices) by sending HTTP GET requests to a receiver.
    Every handler is an [async] function; here it is a computation in a
    small monad that threads the script's mutable variables and the
    environment, can throw, and emits the externally visible effects
    (requests, console lines, virtual device updates) in program order.
    One event is handled at a time: a handler runs to completion. *)

From Stdlib Require Import ZArith QArith Qround Qabs List String Ascii Bool Lia.
From Stdlib Require Import DecimalString.
Import ListNotations.
Local Open Scope string_scope.
Local Open Scope Z_scope.

(** ** Strings *)

(** [String.prototype.toLowerCase], on the ASCII range. *)
Definition lower_ascii (c : ascii) : ascii :=
  let n := nat_of_ascii c in
  if (andb (Nat.leb 65 n) (Nat.leb n 90)) then ascii_of_nat (n + 32) else c.

Fixpoint toLowerCase (s : string) : string :=
  match s with
  | EmptyString => EmptyString
  | String c r => String (lower_ascii c) (toLowerCase r)
  end.

(** [s.split(' ')]: the pieces between single spaces; never empty. *)
Fixpoint split_space (s : string) : list string :=
  match s with
  | EmptyString => [EmptyString]
  | String c r =>
      if Ascii.eqb c " "%char then EmptyString :: split_space r
      else match split_space r with
           | p :: ps => String c p :: ps
           | [] => [String c EmptyString]
           end
  end.

(** [parts.join(sep)] *)
Definition join (sep : string) (parts : list string) : string :=
  String.concat sep parts.

(** [String(n)] for an integer [n]. *)
Definition string_of_Z (z : Z) : string :=
  NilZero.string_of_int (Z.to_int z).

Definition hex_digit (n : nat) : ascii :=
  ascii_of_nat (if Nat.ltb n 10 then 48 + n else 55 + n).

(** Characters that [encodeURIComponent] leaves alone:
    letters, digits and [- _ . ! ~ * ' ( )]. *)
Definition uri_unreserved (c : ascii) : bool :=
  let n := nat_of_ascii c in
  (Nat.leb 65 n && Nat.leb n 90) || (Nat.leb 97 n && Nat.leb n 122)
  || (Nat.leb 48 n && Nat.leb n 57)
  || existsb (Nat.eqb n) [45; 95; 46; 33; 126; 42; 39; 40; 41]%nat.

(** [encodeURIComponent] on a string held as its UTF-8 bytes: every byte
    that is not unreserved becomes [%XX]. *)
Fixpoint encodeURIComponent (s : string) : string :=
  match s with
  | EmptyString => EmptyString
  | String c r =>
      if uri_unreserved c then String c (encodeURIComponent r)
      else let n := nat_of_ascii c in
           String "%" (String (hex_digit (n / 16)) (String (hex_digit (n mod 16))
             (encodeURIComponent r)))
  end.

(** ** Numbers

    A JavaScript number is modelled as an exact rational or [NaN]; the
    rounding of IEEE doubles and the infinities are left out. *)
Inductive Number := NaN | Num (q : Q).

(** What [Math.round] returns: an integer, or [NaN]. *)
Inductive Rounded := RNaN | RInt (z : Z).

(** [ToNumber] of a property that may be [undefined]. *)
Definition toNumber (v : option Q) : Number :=
  match v with Some q => Num q | None => NaN end.

Definition ofRounded (r : Rounded) : Number :=
  match r with RNaN => NaN | RInt z => Num (inject_Z z) end.

Definition num_add (a b : Number) : Number :=
  match a, b with Num x, Num y => Num (x + y) | _, _ => NaN end.
Definition num_sub (a b : Number) : Number :=
  match a, b with Num x, Num y => Num (x - y) | _, _ => NaN end.
Definition num_mul (a b : Number) : Number :=
  match a, b with Num x, Num y => Num (x * y) | _, _ => NaN end.
Definition num_div100 (a : Number) : Number :=
  match a with Num x => Num (x / 100) | NaN => NaN end.

Definition Math_abs (a : Number) : Number :=
  match a with Num x => Num (Qabs x) | NaN => NaN end.
Definition Math_min (a b : Number) : Number :=
  match a, b with Num x, Num y => Num (if Qle_bool x y then x else y) | _, _ => NaN end.
Definition Math_max (a b : Number) : Number :=
  match a, b with Num x, Num y => Num (if Qle_bool x y then y else x) | _, _ => NaN end.
(** [Math.round]: the nearest integer, halves towards plus infinity. *)
Definition Math_round (a : Number) : Rounded :=
  match a with Num x => RInt (Qfloor (x + (1 # 2))) | NaN => RNaN end.
(** [Math.ceil(n / 1000)] for an integer [n]. *)
Definition ceil_div1000 (n : Z) : Z := - ((- n) / 1000).

(** [a > b] and [a < b]; any comparison with [NaN] is false. *)
Definition num_gt (a b : Number) : bool :=
  match a, b with Num x, Num y => negb (Qle_bool x y) | _, _ => false end.
Definition num_lt (a b : Number) : bool := num_gt b a.

Definition string_of_Rounded (r : Rounded) : string :=
  match r with RNaN => "NaN" | RInt z => string_of_Z z end.

(** ** Errors, responses and requests *)

Inductive JsError :=
| Error (message : string)
| SyntaxError
| TypeError.

(** The fields the handlers read from a parsed JSON body. [mute] is the
    truthiness of the property. *)
Record Json := {
  j_volume : option Q;
  j_mute : bool;
  j_power : option string;
  j_playback : option string
}.

(** A response body is represented by what [JSON.parse] makes of it: the
    empty string, a text that is not JSON, the text [null] (reading a
    property of the parsed value then throws), or an object. *)
Inductive Body :=
| Empty
| Malformed
| Null
| Object (o : Json).

(** The [result] object the HTTP client hands to the callback; every
    property may be missing. *)
Record RawResponse := {
  r_statusCode : option Z;
  r_status : option Z;
  r_content : option Body;
  r_body : option Body;
  r_data : option Body;
  r_headers : option (list (string * string));
  r_statusMessage : option string
}.

Record ResponseData := {
  status : Z;
  body : Body;
  headers : list (string * string);
  statusMessage : string
}.

Record Response := { success : bool; data : ResponseData }.

(** How a promise has settled. *)
Inductive Promise (A : Type) :=
| Fulfilled (a : A)
| Rejected (e : JsError).
Arguments Fulfilled {A} a.
Arguments Rejected {A} e.

(** The query parameters [sendYamahaRequest] looks at; [None] is
    [undefined]. *)
Record RequestData := {
  d_volume : option Rounded;
  d_power : option string;
  d_mute : option string;
  d_enable : option string;
  d_playback : option string
}.

(** [requestOptions] *)
Record RequestOptions := {
  url : string;
  method : string;
  req_headers : list (string * string)
}.

(** ** Configuration *)

(** The zone of a speaker is one of the two keys of the endpoints table. *)
Inductive Zone := main | zone2.

Record Speaker := { id : string; ip : string; name : string; zone : Zone }.

Record Endpoints := {
  volume : string;
  ep_status : string;
  power : string;
  mute : string
}.

Record Config := {
  speakers : list Speaker;
  endpoints : Zone -> Endpoints
}.

(** The table as shipped. The handlers below are stated over any table
    of speakers, since the addresses are meant to be edited. *)
Definition YAMAHA_CONFIG : Config := {|
  speakers := [
    {| id := "id1main"; ip := "RECEIVER1_IP_ADDRESS";
       name := "Name Receiver 1 Main Zone"; zone := main |};
    {| id := "id1zone2"; ip := "RECEIVER1_IP_ADDRESS";
       name := "Name Receiver 1 Zone 2"; zone := zone2 |} ];
  endpoints := fun z =>
    match z with
    | main => {| volume := "/YamahaExtendedControl/v1/main/setVolume";
                 ep_status := "/YamahaExtendedControl/v1/main/getStatus";
                 power := "/YamahaExtendedControl/v1/main/setPower";
                 mute := "/YamahaExtendedControl/v1/main/setMute" |}
    | zone2 => {| volume := "/YamahaExtendedControl/v1/zone2/setVolume";
                  ep_status := "/YamahaExtendedControl/v1/zone2/getStatus";
                  power := "/YamahaExtendedControl/v1/zone2/setPower";
                  mute := "/YamahaExtendedControl/v1/zone2/setMute" |}
    end
|}.

Definition PLAYBACK_COOLDOWN_MS : Z := 2500.

(** ** The environment and the monad *)

(** What the HTTP client does with one request: it never calls back, or
    it calls back [delay] milliseconds after the request was made, with
    an error (a truthy value, shown as text) or with a result. *)
Inductive NetOutcome :=
| Never
| Callback (delay : Z) (error : option string) (result : option RawResponse).

(** The script's mutable variables, the clock read by [Date.now()], and
    the outcomes of the requests still to be made, in order (when the
    list runs out, requests go unanswered). *)
Record State := {
  lastPlaybackCommandTime : Z;
  currentVolume : Rounded;
  clock : Z;
  network : list NetOutcome
}.

Inductive Arg := AStr (s : string) | AErr (e : JsError).

(** Visible effects. *)
Inductive Event :=
| Http (req : RequestOptions) (p : Promise Response)
| ConsoleLog (args : list Arg)
| ConsoleError (args : list Arg)
| VirtualDeviceUpdateState (type : string) (deviceId : string) (volume : Number).

Inductive Completion (A : Type) :=
| Normal (a : A)
| Throw (e : JsError).
Arguments Normal {A} a.
Arguments Throw {A} e.

Definition M (A : Type) : Type := State -> Completion A * State * list Event.

Definition ret {A} (a : A) : M A := fun s => (Normal a, s, []).

Definition throw {A} (e : JsError) : M A := fun s => (Throw e, s, []).

Definition bind {A B} (m : M A) (k : A -> M B) : M B := fun s =>
  match m s with
  | (Normal a, s1, ev1) =>
      match k a s1 with (r, s2, ev2) => (r, s2, (ev1 ++ ev2)%list) end
  | (Throw e, s1, ev1) => (Throw e, s1, ev1)
  end.

(** [try { m } catch (error) { h error }] *)
Definition try_catch {A} (m : M A) (h : JsError -> M A) : M A := fun s =>
  match m s with
  | (Normal a, s1, ev1) => (Normal a, s1, ev1)
  | (Throw e, s1, ev1) =>
      match h e s1 with (r, s2, ev2) => (r, s2, (ev1 ++ ev2)%list) end
  end.

Declare Scope js_scope.
Delimit Scope js_scope with js.
Notation "x <- m ;; k" := (bind m (fun x => k))
  (at level 100, m at next level, right associativity) : js_scope.
Notation "m ;; k" := (bind m (fun _ => k))
  (at level 100, right associativity) : js_scope.
Notation "'try' m 'catch' e => h" := (try_catch m (fun e => h))
  (at level 100, e name, m at level 200, h at level 200) : js_scope.
Local Open Scope js_scope.

(** [for (const x of l) { body x }] *)
Fixpoint for_of {A} (l : list A) (body : A -> M unit) : M unit :=
  match l with
  | [] => ret tt
  | x :: r => body x ;; for_of r body
  end.

Definition emit (e : Event) : M unit := fun s => (Normal tt, s, [e]).

Definition console_log (args : list Arg) : M unit := emit (ConsoleLog args).
Definition console_error (args : list Arg) : M unit := emit (ConsoleError args).
Definition virtualDeviceUpdateState (type deviceId : string) (v : Number) : M unit :=
  emit (VirtualDeviceUpdateState type deviceId v).

Definition Date_now : M Z := fun s => (Normal (clock s), s, []).

Definition get_lastPlaybackCommandTime : M Z :=
  fun s => (Normal (lastPlaybackCommandTime s), s, []).

Definition set_lastPlaybackCommandTime (t : Z) : M unit := fun s =>
  (Normal tt,
   {| lastPlaybackCommandTime := t; currentVolume := currentVolume s;
      clock := clock s; network := network s |}, []).

Definition set_currentVolume (v : Rounded) : M unit := fun s =>
  (Normal tt,
   {| lastPlaybackCommandTime := lastPlaybackCommandTime s; currentVolume := v;
      clock := clock s; network := network s |}, []).

(** [JSON.parse(body)] followed by the property reads. *)
Definition JSON_parse (b : Body) : M Json :=
  match b with
  | Empty | Malformed => throw SyntaxError
  | Null => throw TypeError
  | Object o => ret o
  end.

(** [await e]: evaluate [e] to a promise and wait for it; a rejection is
    thrown at the [await]. *)
Definition await {A} (m : M (Promise A)) : M A :=
  p <- m ;;
  match p with
  | Fulfilled a => ret a
  | Rejected e => throw e
  end.

(** ** The request wrapper *)

(** [a || b] with a default [b]: on numbers [0] and [undefined] are
    falsy, on bodies and strings the empty string and [undefined] are. *)
Definition or_number (a : option Z) (b : Z) : Z :=
  match a with
  | Some n => if n =? 0 then b else n
  | None => b
  end.
Definition or_body (a : option Body) (b : Body) : Body :=
  match a with
  | Some Empty | None => b
  | Some c => c
  end.
Definition or_string (a : option string) (b : string) : string :=
  match a with
  | Some s => if String.eqb s "" then b else s
  | None => b
  end.

(** The callback given to [http.makeRequest]. A missing [result] is
    replaced by an object without properties. *)
Definition makeRequest_callback (error : option string) (result : option RawResponse)
  : Promise Response :=
  match error with
  | Some e => Rejected (Error ("HTTP request failed: " ++ e))
  | None =>
      let responseData :=
        match result with
        | Some r => r
        | None => {| r_statusCode := None; r_status := None; r_content := None;
                     r_body := None; r_data := None; r_headers := None;
                     r_statusMessage := None |}
        end in
      let statusCode :=
        or_number (r_statusCode responseData) (or_number (r_status responseData) 200) in
      let content :=
        or_body (r_content responseData)
          (or_body (r_body responseData) (or_body (r_data responseData) Empty)) in
      Fulfilled
        {| success := true;
           data := {| status := statusCode;
                      body := content;
                      headers := match r_headers responseData with
                                 | Some h => h
                                 | None => []
                                 end;
                      statusMessage := or_string (r_statusMessage responseData) "OK" |} |}
  end.

(** The promise built by [sendYamahaRequest]: a 5000 ms timer that
    rejects races the client's callback; whichever runs first settles the
    promise, and the timer, set first, wins a tie. *)
Definition settle (o : NetOutcome) : Promise Response :=
  match o with
  | Never => Rejected (Error "Request timeout")
  | Callback delay error result =>
      if 5000 <=? delay then Rejected (Error "Request timeout")
      else makeRequest_callback error result
  end.

(** Milliseconds until the promise settles. *)
Definition elapsed (o : NetOutcome) : Z :=
  match o with
  | Never => 5000
  | Callback delay _ _ => Z.max 0 (Z.min delay 5000)
  end.

(** [new Promise(...)] around [http.makeRequest(requestOptions, ...)]:
    the request goes out and takes the next outcome of the network. *)
Definition new_Promise (requestOptions : RequestOptions) : M (Promise Response) := fun s =>
  let o := hd Never (network s) in
  (Normal (settle o),
   {| lastPlaybackCommandTime := lastPlaybackCommandTime s;
      currentVolume := currentVolume s;
      clock := clock s + elapsed o;
      network := tl (network s) |},
   [Http requestOptions (settle o)]).

(** [if (v !== undefined) params.push(`key=${encodeURIComponent(v)}`)] *)
Definition push_param (key : string) (v : option string) (params : list string)
  : list string :=
  match v with
  | Some x => List.app params [key ++ "=" ++ encodeURIComponent x]
  | None => params
  end.

Definition sendYamahaRequest (ip endpoint : string) (data : option RequestData)
  (zone : Zone) : M (Promise Response) :=
  let url := "http://" ++ ip ++ endpoint in
  let url :=
    match data with
    | Some data =>
        let params := [] in
        let params := push_param "volume" (option_map string_of_Rounded (d_volume data)) params in
        let params := push_param "power" (d_power data) params in
        let params := push_param "mute" (d_mute data) params in
        let params := push_param "enable" (d_enable data) params in
        let params := push_param "playback" (d_playback data) params in
        if Nat.ltb 0 (List.length params) then url ++ "?" ++ join "&" params else url
    | None => url
    end in
  new_Promise
    {| url := url;
       method := "GET";
       req_headers := [("Content-Type", "application/x-www-form-urlencoded");
                       ("User-Agent", "Flic-Hub-Studio/1.0")] |}.

(** ** The API functions and the handlers *)

Section Script.

(** The configuration table in force. *)
Variable cfg : Config.

(** [YAMAHA_CONFIG.speakers.find(s => s.id === speakerId)] *)
Definition find_speaker (speakerId : string) : option Speaker :=
  find (fun s => String.eqb (id s) speakerId) (speakers cfg).

Definition getCurrentVolumeAndUpdate (speaker : Speaker) : M (option Number) :=
  try
    (response <- await (sendYamahaRequest (ip speaker)
                          (ep_status (endpoints cfg (zone speaker))) None (zone speaker)) ;;
     if success response then
       (statusData <- JSON_parse (body (data response)) ;;
        let currentVolume := toNumber (j_volume statusData) in
        virtualDeviceUpdateState "Speaker" (id speaker) (num_div100 currentVolume) ;;
        ret (Some currentVolume))
     else
       (console_error [AStr ("❌ Failed to get current volume for " ++ name speaker)] ;;
        ret None))
  catch error =>
    (console_error [AStr ("❌ Error getting current volume for " ++ name speaker ++ ":");
                    AErr error] ;;
     ret None).

Definition setYamahaVolume (speakerId : string) (volume_ : Number) : M Response :=
  match find_speaker speakerId with
  | None => throw (Error ("Speaker " ++ speakerId ++ " not found"))
  | Some speaker =>
      let volumeValue := Math_round volume_ in
      try
        (response <- await (sendYamahaRequest (ip speaker)
                              (volume (endpoints cfg (zone speaker)))
                              (Some {| d_volume := Some volumeValue; d_power := None;
                                       d_mute := None; d_enable := None;
                                       d_playback := None |})
                              (zone speaker)) ;;
         if success response then
           (getCurrentVolumeAndUpdate speaker ;;
            ret response)
         else throw (Error ("Failed to set volume for " ++ name speaker)))
      catch error =>
        (console_error [AStr ("❌ Error setting volume for " ++ name speaker ++ ":");
                        AErr error] ;;
         throw error)
  end.

Definition zone_name (z : Zone) : string :=
  match z with main => "main" | zone2 => "zone2" end.

Definition setYamahaPower (speakerId : string) (powerOn : bool) : M Response :=
  match find_speaker speakerId with
  | None => throw (Error ("Speaker " ++ speakerId ++ " not found"))
  | Some speaker =>
      let powerState := if powerOn then "on" else "standby" in
      console_log [AStr ("Setting power for " ++ name speaker ++ " ("
                         ++ zone_name (zone speaker) ++ " zone) to " ++ powerState)] ;;
      try
        (response <- await (sendYamahaRequest (ip speaker)
                              (power (endpoints cfg (zone speaker)))
                              (Some {| d_volume := None; d_power := Some powerState;
                                       d_mute := None; d_enable := None;
                                       d_playback := None |})
                              (zone speaker)) ;;
         if success response then
           (console_log [AStr ("Successfully set power for " ++ name speaker)] ;;
            ret response)
         else throw (Error ("Failed to set power for " ++ name speaker)))
      catch error =>
        (console_error [AStr ("Error setting power for " ++ name speaker ++ ":");
                        AErr error] ;;
         throw error)
  end.

Definition setYamahaMute (speakerId : string) (muted : bool) : M Response :=
  match find_speaker speakerId with
  | None => throw (Error ("Speaker " ++ speakerId ++ " not found"))
  | Some speaker =>
      let muteState := if muted then "true" else "false" in
      console_log [AStr ("Setting mute for " ++ name speaker ++ " ("
                         ++ zone_name (zone speaker) ++ " zone) to " ++ muteState)] ;;
      try
        (response <- await (sendYamahaRequest (ip speaker)
                              (mute (endpoints cfg (zone speaker)))
                              (Some {| d_volume := None; d_power := None;
                                       d_mute := Some muteState; d_enable := None;
                                       d_playback := None |})
                              (zone speaker)) ;;
         if success response then
           (console_log [AStr ("Successfully set mute for " ++ name speaker)] ;;
            ret response)
         else throw (Error ("Failed to set mute for " ++ name speaker)))
      catch error =>
        (console_error [AStr ("Error setting mute for " ++ name speaker ++ ":");
                        AErr error] ;;
         throw error)
  end.

Definition handleDeviceVolumeUp (deviceId : string) : M unit :=
  currentTime <- Date_now ;;
  lastPlaybackCommandTime <- get_lastPlaybackCommandTime ;;
  let timeSinceLastCommand := currentTime - lastPlaybackCommandTime in
  if timeSinceLastCommand <? PLAYBACK_COOLDOWN_MS then
    let remainingCooldown := ceil_div1000 (PLAYBACK_COOLDOWN_MS - timeSinceLastCommand) in
    console_log [AStr ("⏳ Volume up command ignored - playback cooldown active ("
                       ++ string_of_Z remainingCooldown ++ "s remaining)")]
  else
    match find_speaker deviceId with
    | None => console_error [AStr ("Device not found: " ++ deviceId)]
    | Some speaker =>
        try
          (statusResponse <- await (sendYamahaRequest (ip speaker)
                                      (ep_status (endpoints cfg (zone speaker)))
                                      None (zone speaker)) ;;
           if success statusResponse then
             (statusData <- JSON_parse (body (data statusResponse)) ;;
              let currentVolume := toNumber (j_volume statusData) in
              let newVolume := Math_min (Num (100 # 1)) (num_add currentVolume (Num (10 # 1))) in
              setYamahaVolume deviceId newVolume ;;
              ret tt)
           else
             console_error [AStr ("❌ Failed to get current volume for " ++ name speaker)])
        catch error =>
          console_error [AStr ("❌ Error increasing volume for " ++ name speaker ++ ":");
                         AErr error]
    end.

Definition handleDeviceVolumeDown (deviceId : string) : M unit :=
  currentTime <- Date_now ;;
  lastPlaybackCommandTime <- get_lastPlaybackCommandTime ;;
  let timeSinceLastCommand := currentTime - lastPlaybackCommandTime in
  if timeSinceLastCommand <? PLAYBACK_COOLDOWN_MS then
    let remainingCooldown := ceil_div1000 (PLAYBACK_COOLDOWN_MS - timeSinceLastCommand) in
    console_log [AStr ("⏳ Volume down command ignored - playback cooldown active ("
                       ++ string_of_Z remainingCooldown ++ "s remaining)")]
  else
    match find_speaker deviceId with
    | None => console_error [AStr ("Device not found: " ++ deviceId)]
    | Some speaker =>
        try
          (statusResponse <- await (sendYamahaRequest (ip speaker)
                                      (ep_status (endpoints cfg (zone speaker)))
                                      None (zone speaker)) ;;
           if success statusResponse then
             (statusData <- JSON_parse (body (data statusResponse)) ;;
              let currentVolume := toNumber (j_volume statusData) in
              let newVolume := Math_max (Num (0 # 1)) (num_sub currentVolume (Num (10 # 1))) in
              setYamahaVolume deviceId newVolume ;;
              ret tt)
           else
             console_error [AStr ("❌ Failed to get current volume for " ++ name speaker)])
        catch error =>
          console_error [AStr ("❌ Error decreasing volume for " ++ name speaker ++ ":");
                         AErr error]
    end.

Definition handleDeviceMuteToggle (deviceId : string) : M unit :=
  match find_speaker deviceId with
  | None => console_error [AStr ("Device not found: " ++ deviceId)]
  | Some speaker =>
      try
        (statusResponse <- await (sendYamahaRequest (ip speaker)
                                    (ep_status (endpoints cfg (zone speaker)))
                                    None (zone speaker)) ;;
         if success statusResponse then
           (statusData <- JSON_parse (body (data statusResponse)) ;;
            let isCurrentlyMuted := j_mute statusData in
            let newMuteState := negb isCurrentlyMuted in
            response <- await (sendYamahaRequest (ip speaker)
                                 (mute (endpoints cfg (zone speaker)))
                                 (Some {| d_volume := None; d_power := None; d_mute := None;
                                          d_enable := Some (if newMuteState then "true"
                                                            else "false");
                                          d_playback := None |})
                                 (zone speaker)) ;;
            if success response then
              console_log [AStr ("✅ " ++ name speaker ++ " "
                                 ++ (if newMuteState then "muted" else "unmuted"))]
            else
              console_error [AStr ("❌ Failed to toggle mute for " ++ name speaker)])
         else
           console_error [AStr ("❌ Failed to get mute status for " ++ name speaker)])
      catch error =>
        console_error [AStr ("❌ Error toggling mute for " ++ name speaker ++ ":");
                       AErr error]
  end.

(** [statusData.power === 'on'] *)
Definition power_is_on (statusData : Json) : bool :=
  match j_power statusData with
  | Some p => String.eqb p "on"
  | None => false
  end.

Definition handleDevicePowerToggle (deviceId : string) : M unit :=
  match find_speaker deviceId with
  | None => console_error [AStr ("Device not found: " ++ deviceId)]
  | Some speaker =>
      try
        (statusResponse <- await (sendYamahaRequest (ip speaker)
                                    (ep_status (endpoints cfg (zone speaker)))
                                    None (zone speaker)) ;;
         if success statusResponse then
           (statusData <- JSON_parse (body (data statusResponse)) ;;
            let isCurrentlyOn := power_is_on statusData in
            let newPowerState := if isCurrentlyOn then "standby" else "on" in
            response <- await (sendYamahaRequest (ip speaker)
                                 (power (endpoints cfg (zone speaker)))
                                 (Some {| d_volume := None; d_power := Some newPowerState;
                                          d_mute := None; d_enable := None;
                                          d_playback := None |})
                                 (zone speaker)) ;;
            if success response then
              console_log [AStr ("✅ " ++ name speaker ++ " turned "
                                 ++ (if String.eqb newPowerState "on" then "on" else "off"))]
            else
              console_error [AStr ("❌ Failed to toggle power for " ++ name speaker)])
         else
           console_error [AStr ("❌ Failed to get power status for " ++ name speaker)])
      catch error =>
        console_error [AStr ("❌ Error toggling power for " ++ name speaker ++ ":");
                       AErr error]
  end.

Definition handleDevicePowerOn (deviceId : string) : M unit :=
  match find_speaker deviceId with
  | None => console_error [AStr ("Device not found: " ++ deviceId)]
  | Some speaker =>
      try
        (response <- await (sendYamahaRequest (ip speaker)
                              (power (endpoints cfg (zone speaker)))
                              (Some {| d_volume := None; d_power := Some "on";
                                       d_mute := None; d_enable := None;
                                       d_playback := None |})
                              (zone speaker)) ;;
         if success response then
           console_log [AStr ("✅ " ++ name speaker ++ " turned on")]
         else
           console_error [AStr ("❌ Failed to turn on " ++ name speaker)])
      catch error =>
        console_error [AStr ("❌ Error turning on " ++ name speaker ++ ":"); AErr error]
  end.

Definition handleDevicePowerOff (deviceId : string) : M unit :=
  match find_speaker deviceId with
  | None => console_error [AStr ("Device not found: " ++ deviceId)]
  | Some speaker =>
      try
        (response <- await (sendYamahaRequest (ip speaker)
                              (power (endpoints cfg (zone speaker)))
                              (Some {| d_volume := None; d_power := Some "standby";
                                       d_mute := None; d_enable := None;
                                       d_playback := None |})
                              (zone speaker)) ;;
         if success response then
           console_log [AStr ("✅ " ++ name speaker ++ " turned off")]
         else
           console_error [AStr ("❌ Failed to turn off " ++ name speaker)])
      catch error =>
        console_error [AStr ("❌ Error turning off " ++ name speaker ++ ":"); AErr error]
  end.

(** [x || 'unknown'] on a string property. *)
Definition or_unknown (x : option string) : string := or_string x "unknown".

Definition getPlaybackStatus (speaker : Speaker) : M string :=
  try
    (response <- await (sendYamahaRequest (ip speaker)
                          (ep_status (endpoints cfg (zone speaker))) None (zone speaker)) ;;
     if success response then
       (statusData <- JSON_parse (body (data response)) ;;
        if negb (power_is_on statusData) then ret "off"
        else
          (netusbResponse <- await (sendYamahaRequest (ip speaker)
                                      "/YamahaExtendedControl/v1/netusb/getPlayInfo"
                                      None (zone speaker)) ;;
           if success netusbResponse then
             (netusbData <- JSON_parse (body (data netusbResponse)) ;;
              ret (or_unknown (j_playback netusbData)))
           else ret "unknown"))
     else
       (console_error [AStr ("❌ Failed to get playback status for " ++ name speaker)] ;;
        ret "unknown"))
  catch error =>
    (console_error [AStr ("❌ Error getting playback status for " ++ name speaker ++ ":");
                    AErr error] ;;
     ret "unknown").

Definition playbackData (p : string) : option RequestData :=
  Some {| d_volume := None; d_power := None; d_mute := None; d_enable := None;
          d_playback := Some p |}.

Definition pausePlayback (speaker : Speaker) : M unit :=
  try
    (response <- await (sendYamahaRequest (ip speaker)
                          "/YamahaExtendedControl/v1/netusb/setPlayback"
                          (playbackData "pause") (zone speaker)) ;;
     if success response then
       console_log [AStr ("⏸️ " ++ name speaker ++ " playback paused")]
     else
       console_error [AStr ("❌ Failed to pause " ++ name speaker)])
  catch error =>
    console_error [AStr ("❌ Error pausing " ++ name speaker ++ ":"); AErr error].

Definition resumePlayback (speaker : Speaker) : M unit :=
  try
    (response <- await (sendYamahaRequest (ip speaker)
                          "/YamahaExtendedControl/v1/netusb/setPlayback"
                          (playbackData "play") (zone speaker)) ;;
     if success response then
       console_log [AStr ("▶️ " ++ name speaker ++ " playback resumed")]
     else
       console_error [AStr ("❌ Failed to resume " ++ name speaker)])
  catch error =>
    console_error [AStr ("❌ Error resuming " ++ name speaker ++ ":"); AErr error].

Definition skipToNextTrack (speaker : Speaker) : M unit :=
  try
    (response <- await (sendYamahaRequest (ip speaker)
                          "/YamahaExtendedControl/v1/netusb/setPlayback"
                          (playbackData "next") (zone speaker)) ;;
     if success response then
       console_log [AStr ("⏭️ " ++ name speaker ++ " skipped to next track")]
     else
       console_error [AStr ("❌ Failed to skip track on " ++ name speaker)])
  catch error =>
    console_error [AStr ("❌ Error skipping track on " ++ name speaker ++ ":"); AErr error].

(** The [values] object of a virtual device update; [volume] may be
    [undefined]. *)
Record Values := { v_volume : option Q }.

(** The body of the loop over the speakers in [handleSkipDeviceUpdate]. *)
Definition skip_one_speaker (volumeChange : Number) (speaker : Speaker) : M unit :=
  try
    (playbackStatus <- getPlaybackStatus speaker ;;
     if num_lt volumeChange (Num (0 # 1)) then
       (if String.eqb playbackStatus "play" then pausePlayback speaker else ret tt)
     else if num_gt volumeChange (Num (0 # 1)) then
       (if String.eqb playbackStatus "pause" then resumePlayback speaker
        else if String.eqb playbackStatus "play" then skipToNextTrack speaker
        else ret tt)
     else ret tt)
  catch error =>
    console_error [AStr ("❌ Error handling playback control for " ++ name speaker ++ ":");
                   AErr error].

(** Resetting the skip device to its centre position. *)
Definition reset_skip_device : M unit :=
  virtualDeviceUpdateState "Speaker" "skip" (Num (1 # 2)).

(** The block guarded by [isPlaybackCommand] says whether it has
    returned from the function (the early [return] of the cooldown
    path); the statement after the block runs only when it has not. *)
Definition handleSkipDeviceUpdate (deviceId : string) (values : Values) : M unit :=
  if negb (String.eqb deviceId "skip") then ret tt
  else
    let volumeChange := num_sub (toNumber (v_volume values)) (Num (1 # 2)) in
    let isPlaybackCommand := num_gt (Math_abs volumeChange) (Num (1 # 10)) in
    returned <-
      (if isPlaybackCommand then
         currentTime <- Date_now ;;
         lastPlaybackCommandTime <- get_lastPlaybackCommandTime ;;
         let timeSinceLastCommand := currentTime - lastPlaybackCommandTime in
         if timeSinceLastCommand <? PLAYBACK_COOLDOWN_MS then
           let remainingCooldown :=
             ceil_div1000 (PLAYBACK_COOLDOWN_MS - timeSinceLastCommand) in
           console_log [AStr ("⏳ Playback command ignored - cooldown active ("
                              ++ string_of_Z remainingCooldown ++ "s remaining)")] ;;
           reset_skip_device ;;
           ret true
         else
           for_of (speakers cfg) (skip_one_speaker volumeChange) ;;
           set_lastPlaybackCommandTime currentTime ;;
           ret false
       else ret false) ;;
    if (returned : bool) then ret tt else reset_skip_device.

Definition handleYamahaSpeakerUpdate (deviceId : string) (values : Values) : M unit :=
  match v_volume values with
  | Some v =>
      currentTime <- Date_now ;;
      lastPlaybackCommandTime <- get_lastPlaybackCommandTime ;;
      let timeSinceLastCommand := currentTime - lastPlaybackCommandTime in
      if timeSinceLastCommand <? PLAYBACK_COOLDOWN_MS then
        let remainingCooldown := ceil_div1000 (PLAYBACK_COOLDOWN_MS - timeSinceLastCommand) in
        console_log [AStr ("⏳ Volume change ignored - playback cooldown active ("
                           ++ string_of_Z remainingCooldown ++ "s remaining)")]
      else
        let volumePercentage := Math_round (num_mul (Num v) (Num (100 # 1))) in
        try
          (setYamahaVolume deviceId (ofRounded volumePercentage) ;;
           set_currentVolume volumePercentage)
        catch error =>
          console_error [AStr ("❌ Failed to update Yamaha speaker " ++ deviceId ++ ":");
                         AErr error]
  | None => ret tt
  end.

(** ** The event handlers *)

Definition dquote : string := String (ascii_of_nat 34) EmptyString.

(** [flicApp.on('actionMessage', ...)]. The handler it calls is not
    awaited in the script; here it runs to completion. *)
Definition onActionMessage (message : string) : M unit :=
  console_log [AStr "Received action message:"; AStr message] ;;
  let parts := split_space (toLowerCase message) in
  if Nat.leb 2 (List.length parts) then
    let deviceId := hd "" parts in
    let action := join " " (tl parts) in
    match find_speaker deviceId with
    | None => console_log [AStr ("Unknown device: " ++ deviceId)]
    | Some speaker =>
        if String.eqb action "volume up" then handleDeviceVolumeUp deviceId
        else if String.eqb action "volume down" then handleDeviceVolumeDown deviceId
        else if String.eqb action "mute" then handleDeviceMuteToggle deviceId
        else if String.eqb action "power" then handleDevicePowerToggle deviceId
        else if String.eqb action "on" then handleDevicePowerOn deviceId
        else if String.eqb action "off" then handleDevicePowerOff deviceId
        else console_log [AStr ("Unknown action for device " ++ deviceId ++ ": " ++ action)]
    end
  else
    console_log [AStr ("Invalid action message format. Expected: " ++ dquote
                       ++ "{device-id} {action}" ++ dquote)].

Record MetaData := { dimmableType : string; virtualDeviceId : string }.

(** [flicApp.on('virtualDeviceUpdate', ...)] *)
Definition onVirtualDeviceUpdate (metaData : MetaData) (values : Values) : M unit :=
  if String.eqb (dimmableType metaData) "Speaker" then
    if String.eqb (virtualDeviceId metaData) "skip" then
      handleSkipDeviceUpdate (virtualDeviceId metaData) values
    else
      handleYamahaSpeakerUpdate (virtualDeviceId metaData) values
  else ret tt.

End Script.

(** ** Observations on a run *)

Definition result {A} (x : Completion A * State * list Event) : Completion A :=
  fst (fst x).
Definition state {A} (x : Completion A * State * list Event) : State :=
  snd (fst x).
Definition events {A} (x : Completion A * State * list Event) : list Event :=
  snd x.

(** The HTTP requests among the events, each with the way its promise
    settled, in the order they were issued. *)
Fixpoint requests (evs : list Event) : list (RequestOptions * Promise Response) :=
  match evs with
  | [] => []
  | Http req p :: r => (req, p) :: requests r
  | _ :: r => requests r
  end.

Definition is_fulfilled {A} (p : Promise A) : bool :=
  match p with Fulfilled _ => true | Rejected _ => false end.

(** Every request but the last one issued was fulfilled: none was issued
    while, or after, an earlier one was pending or rejected. *)
Fixpoint sequential (l : list (RequestOptions * Promise Response)) : bool :=
  match l with
  | [] => true
  | (_, p) :: r => match r with [] => true | _ :: _ => is_fulfilled p && sequential r end
  end.

(** The cooldown is active in [s]: less than the threshold has passed on
    the clock since the shared timestamp. *)
Definition cooldown_active (s : State) : bool :=
  clock s - lastPlaybackCommandTime s <? PLAYBACK_COOLDOWN_MS.

(** The client has called back strictly before [ms] milliseconds. *)
Definition completed_within (o : NetOutcome) (ms : Z) : bool :=
  match o with
  | Never => false
  | Callback delay _ _ => delay <? ms
  end.

Definition callback_error (o : NetOutcome) : option string :=
  match o with
  | Never => None
  | Callback _ error _ => error
  end.

(** The state once the next request has been answered. *)
Definition after_request (s : State) : State :=
  {| lastPlaybackCommandTime := lastPlaybackCommandTime s;
     currentVolume := currentVolume s;
     clock := clock s + elapsed (hd Never (network s));
     network := tl (network s) |}.

(** The query string as the interface describes it: the pairs of the five
    keys that are present, each as [key=value] with the value
    URI-encoded, joined with [&] after a [?]; nothing when none is
    present or there is no data. *)
Definition present_params (data : RequestData) : list (string * string) :=
  flat_map (fun kv : string * option string =>
              match snd kv with Some v => [(fst kv, v)] | None => [] end)
    [("volume", option_map string_of_Rounded (d_volume data));
     ("power", d_power data); ("mute", d_mute data);
     ("enable", d_enable data); ("playback", d_playback data)].

Definition query_string_spec (data : option RequestData) : string :=
  match data with
  | None => ""
  | Some d =>
      match present_params d with
      | [] => ""
      | ps => "?" ++ join "&" (map (fun kv => fst kv ++ "=" ++ encodeURIComponent (snd kv)) ps)
      end
  end.

(** The twist has moved far enough from the centre to count as a
    playback command: [|values.volume - 0.5| > 0.1]. *)
Definition isPlaybackCommand (values : Values) : bool :=
  num_gt (Math_abs (num_sub (toNumber (v_volume values)) (Num (1 # 2)))) (Num (1 # 10)).

(** The request that [sendYamahaRequest] hands to the HTTP client. *)
Definition request_of (ip endpoint : string) (data : option RequestData) (zone : Zone)
  : RequestOptions :=
  match events (sendYamahaRequest ip endpoint data zone
                  {| lastPlaybackCommandTime := 0; currentVolume := RNaN;
                     clock := 0; network := [] |}) with
  | Http req _ :: _ => req
  | _ => {| url := ""; method := ""; req_headers := [] |}
  end.


(** The error [e] reached the console as the argument of a
    [console.error] line. *)
Definition logged (e : JsError) (evs : list Event) : Prop :=
  exists text, In (ConsoleError [AStr text; AErr e]) evs.

(** Every request whose promise was rejected had its error logged. *)
Definition rejections_logged (evs : list Event) : Prop :=
  forall req e, In (Http req (Rejected e)) evs -> logged e evs.

(** A handler run that absorbs failures: it returns normally, has logged
    the error of every rejected request, and has issued nothing after a
    rejected request. *)
Definition quiet (run : Completion unit * State * list Event) : Prop :=
  result run = Normal tt /\
  rejections_logged (events run) /\
  sequential (requests (events run)) = true.

(** The errors thrown and the console lines written by the branches
    taken when [response.success] is false: an [Error] whose message
    starts with [Failed to], thrown or logged, and a [console.error] line
    with the text alone that starts with [Failed to] after the mark. *)
Definition failed_error (e : JsError) : bool :=
  match e with
  | Error m => String.prefix "Failed to " m
  | _ => false
  end.

Definition failed_event (ev : Event) : bool :=
  match ev with
  | ConsoleError [AStr t] => String.prefix "❌ Failed to " t
  | ConsoleError [AStr _; AErr e] => failed_error e
  | _ => false
  end.

Definition no_failed_branch {A} (run : Completion A * State * list Event) : Prop :=
  Forall (fun ev => failed_event ev = false) (events run) /\
  match result run with
  | Throw e => failed_error e = false
  | Normal _ => True
  end.

Definition is_device_update (ev : Event) : bool :=
  match ev with
  | VirtualDeviceUpdateState _ _ _ => true
  | _ => false
  end.

(** ** Sample environments *)

Definition status_object : Json :=
  {| j_volume := Some (30 # 1); j_mute := false; j_power := Some "on";
     j_playback := Some "play" |}.

(** An answer after 20 ms carrying a JSON object. *)
Definition answer_ok : NetOutcome :=
  Callback 20 None
    (Some {| r_statusCode := Some 200; r_status := None;
             r_content := Some (Object status_object); r_body := None; r_data := None;
             r_headers := None; r_statusMessage := None |}).

(** An answer with HTTP status 500 and no content. *)
Definition answer_500 : NetOutcome :=
  Callback 20 None
    (Some {| r_statusCode := Some 500; r_status := None;
             r_content := None; r_body := None; r_data := None;
             r_headers := None; r_statusMessage := Some "Internal Server Error" |}).

Definition answer_error : NetOutcome := Callback 20 (Some "ECONNREFUSED") None.

Definition answer_late : NetOutcome := Callback 7000 None None.

(** No playback command has been sent yet; the device answers. *)
Definition state_idle : State :=
  {| lastPlaybackCommandTime := 0; currentVolume := RInt 50; clock := 1000000;
     network := [answer_ok; answer_ok; answer_ok; answer_ok; answer_ok; answer_ok] |}.

(** A playback command was sent one second ago. *)
Definition state_cooling : State :=
  {| lastPlaybackCommandTime := 999000; currentVolume := RInt 50; clock := 1000000;
     network := [answer_ok; answer_ok; answer_ok] |}.

Definition state_with (net : list NetOutcome) : State :=
  {| lastPlaybackCommandTime := 0; currentVolume := RInt 50; clock := 1000000;
     network := net |}.

Definition twist (q : Q) : Values := {| v_volume := Some q |}.

(** The passes of a loop [for (const x of l) { body x }] started in [s]:
    each element with the state in which its pass starts. *)
Fixpoint passes {A} (body : A -> M unit) (l : list A) (s : State) : list (A * State) :=
  match l with
  | [] => []
  | x :: r => (x, s) :: passes body r (state (body x s))
  end.

(** How many HTTP requests a run has issued. *)
Definition issued {A} (run : Completion A * State * list Event) : nat :=
  List.length (requests (events run)).

(** The run wrote no [console.error] line: it took the success path. *)
Definition no_error_line (evs : list Event) : bool :=
  forallb (fun ev => match ev with ConsoleError _ => false | _ => true end) evs.

(** A handler run whose requests are issued one after the other, at most
    [k] of them, and exactly [k] when no error was logged. *)
Definition issues_in_sequence {A} (k : nat) (run : Completion A * State * list Event)
  : Prop :=
  sequential (requests (events run)) = true /\
  (issued run <= k)%nat /\
  (no_error_line (events run) = true -> issued run = k).

Definition speaker_main : Speaker :=
  {| id := "id1main"; ip := "RECEIVER1_IP_ADDRESS";
     name := "Name Receiver 1 Main Zone"; zone := main |}.

(** The first statement of the action-message handler. *)
Definition log_received (message : string) : M unit :=
  console_log [AStr "Received action message:"; AStr message].

(** The six actions of the dispatch. *)
Definition known_actions : list string :=
  ["volume up"; "volume down"; "mute"; "power"; "on"; "off"].

(** ** Further definitions: strings *)


(** How many spaces [s] holds. *)
Fixpoint count_spaces (s : string) : nat :=
  match s with
  | EmptyString => 0%nat
  | String c r => ((if Ascii.eqb c " " then 1 else 0) + count_spaces r)%nat
  end.


(** The line of the action-message handler for a message without two
    parts. *)
Definition invalid_format_line : Event :=
  ConsoleLog [AStr ("Invalid action message format. Expected: " ++ dquote
                    ++ "{device-id} {action}" ++ dquote)].

(** A table whose only speaker has an id with capital letters. *)
Definition config_mixed_case : Config :=
  {| speakers := [ {| id := "LivingRoom"; ip := "192.168.0.10"; name := "Living Room";
                      zone := main |} ];
     endpoints := endpoints YAMAHA_CONFIG |}.

(** ** Further definitions: the URLs of the requests *)

Definition status_url (cfg : Config) (speaker : Speaker) : string :=
  "http://" ++ ip speaker ++ ep_status (endpoints cfg (zone speaker)).


Definition power_url (cfg : Config) (speaker : Speaker) (p : string) : string :=
  "http://" ++ ip speaker ++ power (endpoints cfg (zone speaker)) ++ "?power=" ++ p.

Definition mute_url (cfg : Config) (speaker : Speaker) (enable : string) : string :=
  "http://" ++ ip speaker ++ mute (endpoints cfg (zone speaker)) ++ "?enable=" ++ enable.

Definition playInfo_url (speaker : Speaker) : string :=
  "http://" ++ ip speaker ++ "/YamahaExtendedControl/v1/netusb/getPlayInfo".

Definition playback_url (speaker : Speaker) (p : string) : string :=
  "http://" ++ ip speaker ++ "/YamahaExtendedControl/v1/netusb/setPlayback?playback=" ++ p.

(** The URLs of the requests of a run, in order. *)
Definition urls {A} (run : Completion A * State * list Event) : list string :=
  map (fun rp => url (fst rp)) (requests (events run)).


(** A status answer whose JSON object carries no volume. *)
Definition status_without_volume : Json :=
  {| j_volume := None; j_mute := false; j_power := Some "on"; j_playback := None |}.

Definition answer_with (o : Json) : NetOutcome :=
  Callback 20 None
    (Some {| r_statusCode := Some 200; r_status := None;
             r_content := Some (Object o); r_body := None; r_data := None;
             r_headers := None; r_statusMessage := None |}).

(** The playback command for a twist of the skip device by
    [volumeChange], given the playback status of a speaker: a twist down
    pauses a playing speaker, a twist up resumes a paused one and skips
    to the next track on a playing one; nothing otherwise. *)
Definition playback_command (volumeChange : Number) (playbackStatus : string)
  : option string :=
  if num_lt volumeChange (Num (0 # 1)) then
    if String.eqb playbackStatus "play" then Some "pause" else None
  else if num_gt volumeChange (Num (0 # 1)) then
    if String.eqb playbackStatus "pause" then Some "play"
    else if String.eqb playbackStatus "play" then Some "next"
    else None
  else None.

(** A status answer of a speaker in standby, and play-info answers. *)
Definition status_standby : Json :=
  {| j_volume := Some (30 # 1); j_mute := false; j_power := Some "standby";
     j_playback := None |}.

Definition play_info (p : string) : Json :=
  {| j_volume := None; j_mute := false; j_power := None; j_playback := Some p |}.

(** The console line of a command ignored during the cooldown. *)
Definition cooldown_line (what : string) (seconds : Z) : Event :=
  ConsoleLog [AStr ("⏳ " ++ what ++ " (" ++ string_of_Z seconds ++ "s remaining)")].

(** The line an action handler writes when its own lookup fails. *)
Definition device_not_found_line (ev : Event) : bool :=
  match ev with
  | ConsoleError [AStr t] => String.prefix "Device not found: " t
  | _ => false
  end.

(** ** Further definitions: virtual device state management *)

Definition zone_eqb (a b : Zone) : bool :=
  match a, b with
  | main, main | zone2, zone2 => true
  | _, _ => false
  end.

Definition updateVirtualDeviceStates (cfg : Config) (volume_ : Number) : M unit :=
  for_of (speakers cfg)
    (fun speaker => virtualDeviceUpdateState "Speaker" (id speaker) volume_).

Definition updateZoneVirtualDeviceStates (cfg : Config) (zone_ : Zone) (volume_ : Number)
  : M unit :=
  let zoneSpeakers := filter (fun speaker => zone_eqb (zone speaker) zone_) (speakers cfg) in
  for_of zoneSpeakers
    (fun speaker => virtualDeviceUpdateState "Speaker" (id speaker) volume_).

(** The update of the virtual device of [speaker] to [volume_]. *)
Definition device_update (volume_ : Number) (speaker : Speaker) : Event :=
  VirtualDeviceUpdateState "Speaker" (id speaker) volume_.

(** An event that is no virtual device update, or is one of the
    speaker-type device [deviceId]. *)
Definition updates_only (deviceId : string) (ev : Event) : bool :=
  match ev with
  | VirtualDeviceUpdateState type d _ => String.eqb type "Speaker" && String.eqb d deviceId
  | _ => true
  end.
(** ** The primitives on concrete inputs *)

Example split_space_example :
  split_space (toLowerCase "Id1Main  Volume Up") = ["id1main"; ""; "volume"; "up"].
Proof. reflexivity. Qed.

Example encodeURIComponent_example : encodeURIComponent "a b&c=d" = "a%20b%26c%3Dd".
Proof. reflexivity. Qed.

Example string_of_Rounded_example :
  map string_of_Rounded [RInt 40; RInt (-5); RNaN] = ["40"; "-5"; "NaN"].
Proof. reflexivity. Qed.

Example Math_round_example :
  map Math_round [Num (5 # 2); Num (-5 # 2); Num (249 # 100); NaN]
  = [RInt 3; RInt (-2); RInt 2; RNaN].
Proof. reflexivity. Qed.

Example ceil_div1000_example : map ceil_div1000 [2500; 1500; 1000; 1] = [3; 2; 1; 1].
Proof. reflexivity. Qed.

Example isPlaybackCommand_example :
  map isPlaybackCommand [twist (6 # 10); twist (61 # 100); twist (1 # 5);
                         {| v_volume := None |}]
  = [false; true; true; false].
Proof. reflexivity. Qed.

(** ** The request wrapper: settling and URL *)

Lemma settle_success (o : NetOutcome) (r : Response) :
  settle o = Fulfilled r -> success r = true.
Proof.
  destruct o as [|d e res]; simpl; [discriminate|].
  destruct (5000 <=? d); [discriminate|].
  destruct e; simpl; [discriminate|].
  intros H; injection H as <-; reflexivity.
Qed.

Lemma settle_rejected (o : NetOutcome) (e : JsError) :
  settle o = Rejected e ->
  e = Error "Request timeout" \/ exists x, e = Error ("HTTP request failed: " ++ x).
Proof.
  destruct o as [|d err res]; simpl.
  - intros H; injection H as <-; now left.
  - destruct (5000 <=? d).
    + intros H; injection H as <-; now left.
    + destruct err as [x|]; simpl; [|discriminate].
      intros H; injection H as <-; right; now exists x.
Qed.

Lemma sendYamahaRequest_run ip endpoint data zone s :
  sendYamahaRequest ip endpoint data zone s =
  (Normal (settle (hd Never (network s))), after_request s,
   [Http (request_of ip endpoint data zone) (settle (hd Never (network s)))]).
Proof. reflexivity. Qed.

Lemma await_send_run ip endpoint data zone s :
  await (sendYamahaRequest ip endpoint data zone) s =
  match settle (hd Never (network s)) with
  | Fulfilled r =>
      (Normal r, after_request s, [Http (request_of ip endpoint data zone) (Fulfilled r)])
  | Rejected e =>
      (Throw e, after_request s, [Http (request_of ip endpoint data zone) (Rejected e)])
  end.
Proof.
  unfold await, bind. rewrite sendYamahaRequest_run.
  destruct (settle (hd Never (network s))); reflexivity.
Qed.

Lemma append_empty (s : string) : s ++ "" = s.
Proof. induction s as [|c r IH]; simpl; [reflexivity | now rewrite IH]. Qed.

Lemma append_assoc (a b c : string) : (a ++ b) ++ c = a ++ (b ++ c).
Proof. induction a as [|x r IH]; simpl; [reflexivity | now rewrite IH]. Qed.

(** C4: [sendYamahaRequest] has a fixed 5000 ms timeout.  For every call,
    when the HTTP client has not called back within 5000 ms the returned
    promise is rejected with the error [Request timeout]; when it has
    called back with an error the promise is rejected with an
    [HTTP request failed] error; otherwise the promise is fulfilled. The
    call itself always returns, having issued the one request. *)
Theorem sendYamahaRequest_timeout ip endpoint data zone s :
  let o := hd Never (network s) in
  let run := sendYamahaRequest ip endpoint data zone s in
  (exists req p, result run = Normal p /\ events run = [Http req p]) /\
  (completed_within o 5000 = false ->
   result run = Normal (Rejected (Error "Request timeout"))) /\
  (forall e, completed_within o 5000 = true -> callback_error o = Some e ->
   result run = Normal (Rejected (Error ("HTTP request failed: " ++ e)))) /\
  (completed_within o 5000 = true -> callback_error o = None ->
   exists response, result run = Normal (Fulfilled response)).
Proof.
  intros o run. subst run. rewrite sendYamahaRequest_run. fold o.
  unfold result, events; simpl. split; [eauto|].
  destruct o as [|d err res]; simpl.
  - repeat split; try discriminate; auto.
  - rewrite Z.leb_antisym. destruct (d <? 5000); simpl.
    + split; [discriminate|]. split.
      * intros e _ ->. reflexivity.
      * intros _ ->. simpl. eauto.
    + repeat split; try discriminate; auto.
Qed.

(** C5: every request built by [sendYamahaRequest] is a plain HTTP GET
    with query-string parameters.  The method is always [GET]; the URL is
    [http://ip endpoint] followed by the query string made of the keys
    volume, power, mute, enable and playback of the data argument that
    are present (each URI-encoded, joined with [&], after a [?] only
    when there is at least one); with no data argument the URL has no
    query string. *)
Theorem sendYamahaRequest_is_get_with_query ip endpoint data zone s :
  (exists req p,
     events (sendYamahaRequest ip endpoint data zone s) = [Http req p] /\
     method req = "GET" /\
     url req = "http://" ++ ip ++ endpoint ++ query_string_spec data) /\
  (exists req p,
     events (sendYamahaRequest ip endpoint None zone s) = [Http req p] /\
     url req = "http://" ++ ip ++ endpoint).
Proof.
  split.
  - eexists; eexists. split; [reflexivity|]. split; [reflexivity|].
    cbn [url].
    destruct data as [[v p m e pb]|]; cbn [query_string_spec].
    + destruct v, p, m, e, pb;
        cbn -[append encodeURIComponent string_of_Rounded];
        rewrite ?append_assoc, ?append_empty; reflexivity.
    + now rewrite !append_empty.
  - eexists; eexists. split; reflexivity.
Qed.

(** ** Symbolic execution of the handlers *)

Ltac unfold_script :=
  unfold handleSkipDeviceUpdate, handleDeviceVolumeUp, handleDeviceVolumeDown,
    handleDeviceMuteToggle, handleDevicePowerToggle, handleDevicePowerOn,
    handleDevicePowerOff, handleYamahaSpeakerUpdate, setYamahaVolume, setYamahaPower,
    setYamahaMute, getCurrentVolumeAndUpdate, getPlaybackStatus, pausePlayback,
    resumePlayback, skipToNextTrack, reset_skip_device;
  unfold bind, try_catch, ret, throw, console_log, console_error,
    virtualDeviceUpdateState, emit, Date_now, get_lastPlaybackCommandTime,
    set_lastPlaybackCommandTime, set_currentVolume;
  cbv beta iota zeta.

Ltac run_step :=
  match goal with
  | |- context [await (sendYamahaRequest ?i ?e ?d ?z) ?s] =>
      rewrite (await_send_run i e d z s);
      let r := fresh "r" in
      let err := fresh "err" in
      let E := fresh "E" in
      destruct (settle (hd Never (network s))) as [r|err] eqn:E;
      [ rewrite ?(settle_success _ _ E) | ]
  | |- context [if ?c then _ else _] =>
      first [ match goal with H : c = _ |- _ => rewrite H end
            | let v := eval cbv in c in
              match v with
              | true => change c with true
              | false => change c with false
              end
            | let C := fresh "C" in destruct c eqn:C ]
  | |- context [JSON_parse ?b ?s] =>
      let B := fresh "B" in destruct b eqn:B; cbn [JSON_parse]; unfold throw, ret
  | |- context [match ?x with Some _ => _ | None => _ end] =>
      first [ match goal with H : x = _ |- _ => rewrite H end
            | let F := fresh "F" in destruct x eqn:F ]
  end; cbv beta iota zeta.

Ltac run_script := unfold_script; repeat run_step.

(** C1: one shared timestamp with a fixed 2500 ms threshold gates the
    volume and playback paths.  Whenever the current time minus
    [lastPlaybackCommandTime] is below 2500 ms, the volume-up handler,
    the volume-down handler, the speaker-twist volume handler and the
    skip-device handler each return without issuing any HTTP request. *)
Theorem cooldown_blocks_requests cfg deviceId values s :
  clock s - lastPlaybackCommandTime s < 2500 ->
  PLAYBACK_COOLDOWN_MS = 2500 /\
  (result (handleDeviceVolumeUp cfg deviceId s) = Normal tt /\
   requests (events (handleDeviceVolumeUp cfg deviceId s)) = []) /\
  (result (handleDeviceVolumeDown cfg deviceId s) = Normal tt /\
   requests (events (handleDeviceVolumeDown cfg deviceId s)) = []) /\
  (result (handleYamahaSpeakerUpdate cfg deviceId values s) = Normal tt /\
   requests (events (handleYamahaSpeakerUpdate cfg deviceId values s)) = []) /\
  (result (handleSkipDeviceUpdate cfg deviceId values s) = Normal tt /\
   requests (events (handleSkipDeviceUpdate cfg deviceId values s)) = []).
Proof.
  intros H. apply Z.ltb_lt in H.
  change 2500 with PLAYBACK_COOLDOWN_MS in H.
  split; [reflexivity|].
  repeat split; run_script; reflexivity.
Qed.

Lemma cooldown_blocks_requests_witness :
  clock state_cooling - lastPlaybackCommandTime state_cooling < 2500 /\
  requests (events (handleDeviceVolumeUp YAMAHA_CONFIG "id1main" state_cooling)) = [] /\
  requests (events (handleSkipDeviceUpdate YAMAHA_CONFIG "skip" (twist (9 # 10))
                      state_cooling)) = [].
Proof.
  assert (H : clock state_cooling - lastPlaybackCommandTime state_cooling < 2500)
    by (vm_compute; reflexivity).
  split; [exact H|].
  pose proof (cooldown_blocks_requests YAMAHA_CONFIG "id1main" (twist (9 # 10))
                state_cooling H) as T.
  split; [apply T|].
  apply (cooldown_blocks_requests YAMAHA_CONFIG "skip" (twist (9 # 10)) state_cooling H).
Defined.

Lemma rejections_logged_app (a b : list Event) :
  rejections_logged a -> rejections_logged b -> rejections_logged (a ++ b).
Proof.
  intros Ha Hb req e Hin. apply in_app_or in Hin.
  destruct Hin as [Hin|Hin]; [destruct (Ha _ _ Hin) as [t Ht] | destruct (Hb _ _ Hin) as [t Ht]];
    exists t; apply in_or_app; auto.
Qed.

Lemma requests_app (a b : list Event) :
  requests (a ++ b) = (requests a ++ requests b)%list.
Proof.
  induction a as [|ev a IH]; [reflexivity|].
  destruct ev; simpl; now rewrite IH.
Qed.

Lemma settle_not_failed (o : NetOutcome) (e : JsError) :
  settle o = Rejected e -> failed_error e = false.
Proof.
  intros H. destruct (settle_rejected _ _ H) as [->|[x ->]]; reflexivity.
Qed.

(** Closing tactics for the paths left by [run_script]. *)
Ltac solve_logged :=
  let req := fresh "req" in
  let e := fresh "e" in
  let Hin := fresh "Hin" in
  intros req e Hin; cbn [events snd In List.app] in Hin;
  repeat (destruct Hin as [Hin|Hin]; try discriminate Hin);
  try contradiction;
  injection Hin as <- <-; eexists; cbn [events snd In List.app]; eauto 12.

(** One pass of the loop of [handleSkipDeviceUpdate]. *)
Lemma skip_one_speaker_pass cfg volumeChange speaker s :
  let run := skip_one_speaker cfg volumeChange speaker s in
  quiet run /\
  lastPlaybackCommandTime (state run) = lastPlaybackCommandTime s /\
  (List.length (requests (events run)) <= 3)%nat /\
  Forall (fun ev => is_device_update ev = false) (events run) /\
  Forall (fun ev => failed_event ev = false) (events run).
Proof.
  unfold quiet, skip_one_speaker. run_script.
  all: repeat match goal with
         | E : settle _ = Rejected _ |- _ => apply settle_not_failed in E
         end.
  all: (split; [split; [reflexivity | split; [solve_logged | reflexivity]]|]).
  all: (split; [reflexivity|]).
  all: (split; [cbn; lia|]).
  all: split; cbn [events snd List.app];
    repeat (apply Forall_cons; [first [reflexivity | assumption]|]); apply Forall_nil.
Qed.

(** The loop of [handleSkipDeviceUpdate] over a list of speakers. *)
Lemma skip_loop cfg volumeChange (l : list Speaker) : forall s,
  let body := skip_one_speaker cfg volumeChange in
  let run := for_of l body s in
  result run = Normal tt /\
  lastPlaybackCommandTime (state run) = lastPlaybackCommandTime s /\
  rejections_logged (events run) /\
  Forall (fun ev => is_device_update ev = false) (events run) /\
  Forall (fun ev => failed_event ev = false) (events run) /\
  requests (events run) =
    List.concat (map (fun r => requests (events (body (fst r) (snd r)))) (passes body l s)) /\
  map fst (passes body l s) = l.
Proof.
  induction l as [|x l IH]; intros s body run.
  - subst run. cbn. repeat split; try constructor. intros req e [].
  - subst run. cbn [for_of passes map List.concat fst snd]. unfold bind.
    pose proof (skip_one_speaker_pass cfg volumeChange x s) as P.
    cbv zeta in P. fold body in P.
    destruct P as ((Hres & Hlog & _) & Hkeep & _ & Hdev & Hfail).
    specialize (IH (state (body x s))). cbv zeta in IH. fold body in IH.
    destruct IH as (IHres & IHkeep & IHlog & IHdev & IHfail & IHreq & IHmap).
    destruct (body x s) as [[res st] evs] eqn:Ex.
    unfold result, state, events in *. cbn [fst snd] in *. subst res.
    destruct (for_of l body st) as [[res2 st2] evs2] eqn:El.
    cbn [fst snd] in *.
    repeat split.
    + assumption.
    + congruence.
    + now apply rejections_logged_app.
    + apply Forall_app; auto.
    + apply Forall_app; auto.
    + rewrite requests_app. now rewrite IHreq.
    + now rewrite IHmap.
Qed.

Lemma find_speaker_none cfg deviceId :
  (forall sp, In sp (speakers cfg) -> id sp <> deviceId) ->
  find_speaker cfg deviceId = None.
Proof.
  intros H. unfold find_speaker.
  destruct (find _ _) as [sp|] eqn:F; [|reflexivity].
  apply find_some in F. destruct F as [Hin Heq].
  apply String.eqb_eq in Heq. now apply H in Hin.
Qed.

(** C7: speaker lookup is a lookup by identifier in the configuration
    table.  For every action message whose device-id token (the first of
    at least two parts) equals the id of no configured speaker, the
    handler logs an [Unknown device] line and returns: no HTTP request is
    issued and the state is unchanged. *)
Theorem unknown_device_is_ignored cfg message s :
  let parts := split_space (toLowerCase message) in
  let deviceId := hd "" parts in
  (2 <= List.length parts)%nat ->
  (forall sp, In sp (speakers cfg) -> id sp <> deviceId) ->
  onActionMessage cfg message s =
  (Normal tt, s,
   [ConsoleLog [AStr "Received action message:"; AStr message];
    ConsoleLog [AStr ("Unknown device: " ++ deviceId)]]).
Proof.
  intros parts deviceId Hlen Hid.
  apply find_speaker_none in Hid.
  unfold onActionMessage. fold parts. fold deviceId.
  apply Nat.leb_le in Hlen. rewrite Hid.
  unfold bind, console_log, emit. rewrite Hlen. reflexivity.
Qed.

Lemma unknown_device_is_ignored_witness :
  onActionMessage YAMAHA_CONFIG "Kitchen Mute" state_idle =
  (Normal tt, state_idle,
   [ConsoleLog [AStr "Received action message:"; AStr "Kitchen Mute"];
    ConsoleLog [AStr "Unknown device: kitchen"]]).
Proof.
  apply (unknown_device_is_ignored YAMAHA_CONFIG "Kitchen Mute" state_idle).
  - vm_compute. apply le_n.
  - intros sp Hin. cbn in Hin. destruct Hin as [<-|[<-|[]]]; cbn; discriminate.
Defined.

(** C9: the shared timestamp [lastPlaybackCommandTime] is written only by
    the skip-device handler, and only when the twist has moved by more
    than 0.1 from the centre and the cooldown is not active (it then
    takes the time read at the start of the handler).  The volume-up,
    volume-down and speaker-twist handlers, like every other handler,
    leave it as it was, so a blocked volume command does not extend the
    cooldown. *)
Theorem only_skip_handler_writes_timestamp cfg deviceId values message s :
  lastPlaybackCommandTime (state (handleDeviceVolumeUp cfg deviceId s))
    = lastPlaybackCommandTime s /\
  lastPlaybackCommandTime (state (handleDeviceVolumeDown cfg deviceId s))
    = lastPlaybackCommandTime s /\
  lastPlaybackCommandTime (state (handleYamahaSpeakerUpdate cfg deviceId values s))
    = lastPlaybackCommandTime s /\
  lastPlaybackCommandTime (state (handleDeviceMuteToggle cfg deviceId s))
    = lastPlaybackCommandTime s /\
  lastPlaybackCommandTime (state (handleDevicePowerToggle cfg deviceId s))
    = lastPlaybackCommandTime s /\
  lastPlaybackCommandTime (state (handleDevicePowerOn cfg deviceId s))
    = lastPlaybackCommandTime s /\
  lastPlaybackCommandTime (state (handleDevicePowerOff cfg deviceId s))
    = lastPlaybackCommandTime s /\
  lastPlaybackCommandTime (state (onActionMessage cfg message s))
    = lastPlaybackCommandTime s /\
  lastPlaybackCommandTime (state (handleSkipDeviceUpdate cfg deviceId values s))
    = (if String.eqb deviceId "skip" && isPlaybackCommand values
          && negb (cooldown_active s)
       then clock s else lastPlaybackCommandTime s).
Proof.
  assert (Hup : forall d s, lastPlaybackCommandTime (state (handleDeviceVolumeUp cfg d s))
                            = lastPlaybackCommandTime s)
    by (intros; run_script; reflexivity).
  assert (Hdown : forall d s, lastPlaybackCommandTime (state (handleDeviceVolumeDown cfg d s))
                              = lastPlaybackCommandTime s)
    by (intros; run_script; reflexivity).
  assert (Hmute : forall d s, lastPlaybackCommandTime (state (handleDeviceMuteToggle cfg d s))
                              = lastPlaybackCommandTime s)
    by (intros; run_script; reflexivity).
  assert (Hpow : forall d s, lastPlaybackCommandTime (state (handleDevicePowerToggle cfg d s))
                             = lastPlaybackCommandTime s)
    by (intros; run_script; reflexivity).
  assert (Hon : forall d s, lastPlaybackCommandTime (state (handleDevicePowerOn cfg d s))
                            = lastPlaybackCommandTime s)
    by (intros; run_script; reflexivity).
  assert (Hoff : forall d s, lastPlaybackCommandTime (state (handleDevicePowerOff cfg d s))
                             = lastPlaybackCommandTime s)
    by (intros; run_script; reflexivity).
  repeat split; auto.
  - run_script; reflexivity.
  - unfold onActionMessage, bind, console_log, emit. cbv beta iota zeta.
    set (parts := split_space (toLowerCase message)).
    set (d := hd "" parts). set (a := join " " (tl parts)).
    destruct (Nat.leb 2 (List.length parts)); [|reflexivity].
    destruct (find_speaker cfg d); [|reflexivity].
    repeat match goal with
           | |- context [if ?c then _ else _] => destruct c
           end;
      match goal with
      | |- context [?h cfg d s] =>
          let H := fresh in
          assert (H : lastPlaybackCommandTime (state (h cfg d s)) = lastPlaybackCommandTime s)
            by auto;
          destruct (h cfg d s) as [[? ?] ?]; exact H
      | |- _ => reflexivity
      end.
  - unfold handleSkipDeviceUpdate, isPlaybackCommand, cooldown_active.
    destruct (String.eqb deviceId "skip"); [|reflexivity].
    cbn [negb andb]. cbv zeta.
    set (vc := num_sub (toNumber (v_volume values)) (Num (1 # 2))).
    destruct (num_gt (Math_abs vc) (Num (1 # 10))); [|reflexivity].
    unfold bind, Date_now, get_lastPlaybackCommandTime, set_lastPlaybackCommandTime,
      console_log, reset_skip_device, virtualDeviceUpdateState, emit, ret.
    cbv beta iota zeta.
    destruct (clock s - lastPlaybackCommandTime s <? PLAYBACK_COOLDOWN_MS); [reflexivity|].
    cbv beta iota zeta.
    pose proof (skip_loop cfg vc (speakers cfg) s) as L. cbv zeta in L.
    destruct L as (Lres & _).
    destruct (for_of (speakers cfg) (skip_one_speaker cfg vc) s) as [[res st] evs].
    unfold result in Lres; cbn [fst snd] in Lres. subst res. reflexivity.
Qed.

(** C10: every invocation of the skip-device handler with device id
    [skip] returns having reset the virtual skip device to the centre
    position (volume 0.5) as its last effect, and does so once: on the
    path blocked by the cooldown, on the path that sends playback
    commands, and on the small-movement path.  For any other device id
    the handler returns without any effect. *)
Theorem skip_handler_resets_device cfg deviceId values s :
  let run := handleSkipDeviceUpdate cfg deviceId values s in
  let reset := VirtualDeviceUpdateState "Speaker" "skip" (Num (1 # 2)) in
  let volumeChange := num_sub (toNumber (v_volume values)) (Num (1 # 2)) in
  (deviceId = "skip" ->
   result run = Normal tt /\
   exists before, events run = (before ++ [reset])%list /\
                  Forall (fun ev => is_device_update ev = false) before) /\
  (deviceId = "skip" -> isPlaybackCommand values = true -> cooldown_active s = true ->
   exists line, events run = [ConsoleLog line; reset]) /\
  (deviceId = "skip" -> isPlaybackCommand values = true -> cooldown_active s = false ->
   events run
   = (events (for_of (speakers cfg) (skip_one_speaker cfg volumeChange) s) ++ [reset])%list) /\
  (deviceId = "skip" -> isPlaybackCommand values = false -> events run = [reset]) /\
  (deviceId <> "skip" -> run = (Normal tt, s, [])).
Proof.
  intros run reset volumeChange.
  assert (Hother : deviceId <> "skip" -> run = (Normal tt, s, [])).
  { intros Hne. apply String.eqb_neq in Hne. subst run.
    unfold handleSkipDeviceUpdate. now rewrite Hne. }
  assert (Hskip : deviceId = "skip" ->
                  run = match isPlaybackCommand values, cooldown_active s with
                        | true, true =>
                            (Normal tt, s,
                             [ConsoleLog
                                [AStr ("⏳ Playback command ignored - cooldown active ("
                                       ++ string_of_Z (ceil_div1000
                                            (PLAYBACK_COOLDOWN_MS
                                             - (clock s - lastPlaybackCommandTime s)))
                                       ++ "s remaining)")]; reset])
                        | true, false =>
                            let loop := for_of (speakers cfg)
                                          (skip_one_speaker cfg volumeChange) s in
                            (Normal tt,
                             {| lastPlaybackCommandTime := clock s;
                                currentVolume := currentVolume (state loop);
                                clock := clock (state loop);
                                network := network (state loop) |},
                             (events loop ++ [reset])%list)
                        | false, _ => (Normal tt, s, [reset])
                        end).
  { intros ->. subst run. unfold handleSkipDeviceUpdate, isPlaybackCommand, cooldown_active.
    cbn [String.eqb Ascii.eqb Bool.eqb negb]. cbv zeta. fold volumeChange.
    destruct (num_gt (Math_abs volumeChange) (Num (1 # 10))); [|reflexivity].
    unfold bind, Date_now, get_lastPlaybackCommandTime, set_lastPlaybackCommandTime,
      console_log, reset_skip_device, virtualDeviceUpdateState, emit, ret.
    cbv beta iota zeta.
    destruct (clock s - lastPlaybackCommandTime s <? PLAYBACK_COOLDOWN_MS); [reflexivity|].
    cbv beta iota zeta.
    pose proof (skip_loop cfg volumeChange (speakers cfg) s) as L. cbv zeta in L.
    destruct L as (Lres & _).
    destruct (for_of (speakers cfg) (skip_one_speaker cfg volumeChange) s) as [[res st] evs].
    unfold result, state, events in *; cbn [fst snd] in *. subst res.
    now rewrite !app_nil_r. }
  split; [|split; [|split; [|split]]]; [| | | |exact Hother].
  - intros E. rewrite (Hskip E). split.
    + destruct (isPlaybackCommand values), (cooldown_active s); reflexivity.
    + destruct (isPlaybackCommand values); [destruct (cooldown_active s)|].
      * eexists [_]. split; [reflexivity|]. repeat constructor.
      * eexists. split; [reflexivity|].
        apply (skip_loop cfg volumeChange (speakers cfg) s).
      * exists []. split; [reflexivity|]. constructor.
  - intros E Hp Hc. rewrite (Hskip E), Hp, Hc. eexists. reflexivity.
  - intros E Hp Hc. rewrite (Hskip E), Hp, Hc. reflexivity.
  - intros E Hp. rewrite (Hskip E), Hp. reflexivity.
Qed.

Lemma skip_handler_resets_device_witness :
  events (handleSkipDeviceUpdate YAMAHA_CONFIG "skip" (twist (55 # 100)) state_idle)
  = [VirtualDeviceUpdateState "Speaker" "skip" (Num (1 # 2))] /\
  handleSkipDeviceUpdate YAMAHA_CONFIG "id1main" (twist (9 # 10)) state_idle
  = (Normal tt, state_idle, []) /\
  (exists line,
     events (handleSkipDeviceUpdate YAMAHA_CONFIG "skip" (twist (9 # 10)) state_cooling)
     = [ConsoleLog line; VirtualDeviceUpdateState "Speaker" "skip" (Num (1 # 2))]).
Proof.
  split; [|split].
  - apply (skip_handler_resets_device YAMAHA_CONFIG "skip" (twist (55 # 100)) state_idle);
      reflexivity.
  - apply (skip_handler_resets_device YAMAHA_CONFIG "id1main" (twist (9 # 10)) state_idle).
    discriminate.
  - apply (skip_handler_resets_device YAMAHA_CONFIG "skip" (twist (9 # 10)) state_cooling);
      reflexivity.
Defined.

(** The three ways a run of the skip-device handler can go. *)
Lemma skip_handler_events cfg deviceId values s :
  let run := handleSkipDeviceUpdate cfg deviceId values s in
  let reset := VirtualDeviceUpdateState "Speaker" "skip" (Num (1 # 2)) in
  let body := skip_one_speaker cfg (num_sub (toNumber (v_volume values)) (Num (1 # 2))) in
  (result run = Normal tt /\
   ((exists line, events run = [ConsoleLog line; reset]) \/
    events run = [reset] \/ events run = [])) \/
  (result run = Normal tt /\
   events run = (events (for_of (speakers cfg) body s) ++ [reset])%list).
Proof.
  intros run reset body. subst run.
  unfold handleSkipDeviceUpdate.
  destruct (String.eqb deviceId "skip"); cbn [negb]; [|left; split; [reflexivity|auto]].
  cbv zeta. fold body.
  destruct (num_gt _ _); [|left; split; [reflexivity|auto]].
  unfold bind, Date_now, get_lastPlaybackCommandTime, set_lastPlaybackCommandTime,
    console_log, reset_skip_device, virtualDeviceUpdateState, emit, ret.
  cbv beta iota zeta.
  destruct (clock s - lastPlaybackCommandTime s <? PLAYBACK_COOLDOWN_MS).
  - left. split; [reflexivity|]. left. eexists. reflexivity.
  - right. cbv beta iota zeta.
    pose proof (skip_loop cfg (num_sub (toNumber (v_volume values)) (Num (1 # 2)))
                  (speakers cfg) s) as L.
    cbv zeta in L. fold body in L. destruct L as (Lres & _).
    destruct (for_of (speakers cfg) body s) as [[res st] evs].
    unfold result, events in *; cbn [fst snd] in *. subst res.
    split; [reflexivity|]. now rewrite !app_nil_r.
Qed.



Ltac solve_sequence :=
  unfold issues_in_sequence, issued; run_script;
  (split; [reflexivity | split; [cbn; lia |]]);
  let H := fresh in
  intros H; cbn [no_error_line forallb events snd List.app andb] in H;
  first [discriminate H | reflexivity].

(** C3, as the code has it: each of the six action handlers issues its
    HTTP requests one after the other, a later request only after the
    previous one has been fulfilled, and at most three of them.  On the
    success path (no error logged) power on and power off issue exactly
    one request, mute toggle and power toggle exactly two, and volume up
    and volume down, when the cooldown is not active, exactly three
    (read the status, set the volume, read the volume back).  A volume
    handler stopped by the cooldown issues none. *)
Theorem action_handlers_issue_requests_in_sequence cfg deviceId s :
  (cooldown_active s = false ->
   issues_in_sequence 3 (handleDeviceVolumeUp cfg deviceId s) /\
   issues_in_sequence 3 (handleDeviceVolumeDown cfg deviceId s)) /\
  (cooldown_active s = true ->
   issued (handleDeviceVolumeUp cfg deviceId s) = 0%nat /\
   issued (handleDeviceVolumeDown cfg deviceId s) = 0%nat) /\
  issues_in_sequence 2 (handleDeviceMuteToggle cfg deviceId s) /\
  issues_in_sequence 2 (handleDevicePowerToggle cfg deviceId s) /\
  issues_in_sequence 1 (handleDevicePowerOn cfg deviceId s) /\
  issues_in_sequence 1 (handleDevicePowerOff cfg deviceId s).
Proof.
  split; [|split; [|split; [|split; [|split]]]].
  - unfold cooldown_active. intros H. split; solve_sequence.
  - unfold cooldown_active, issued. intros H. split; run_script; reflexivity.
  - solve_sequence.
  - solve_sequence.
  - solve_sequence.
  - solve_sequence.
Qed.

Lemma action_handlers_issue_requests_in_sequence_witness :
  cooldown_active state_idle = false /\
  no_error_line (events (handleDeviceVolumeUp YAMAHA_CONFIG "id1main" state_idle)) = true /\
  issued (handleDeviceVolumeUp YAMAHA_CONFIG "id1main" state_idle) = 3%nat.
Proof.
  split; [reflexivity|]. split; [vm_compute; reflexivity|].
  apply (action_handlers_issue_requests_in_sequence YAMAHA_CONFIG "id1main" state_idle).
  - reflexivity.
  - vm_compute; reflexivity.
Defined.

(** Against C3 as stated: a volume-up on the shipped table, with the
    device answering every request, returns normally after three
    fulfilled requests (status, set volume, status), not one or two. *)
Lemma volume_up_issues_three_requests :
  let run := handleDeviceVolumeUp YAMAHA_CONFIG "id1main" state_idle in
  result run = Normal tt /\
  no_error_line (events run) = true /\
  forallb (fun rp => is_fulfilled (snd rp)) (requests (events run)) = true /\
  map (fun rp => url (fst rp)) (requests (events run))
  = ["http://RECEIVER1_IP_ADDRESS/YamahaExtendedControl/v1/main/getStatus";
     "http://RECEIVER1_IP_ADDRESS/YamahaExtendedControl/v1/main/setVolume?volume=40";
     "http://RECEIVER1_IP_ADDRESS/YamahaExtendedControl/v1/main/getStatus"] /\
  ~ (1 <= issued run <= 2)%nat.
Proof.
  cbv zeta. split; [vm_compute; reflexivity|]. split; [vm_compute; reflexivity|].
  split; [vm_compute; reflexivity|]. split; [vm_compute; reflexivity|].
  assert (E : issued (handleDeviceVolumeUp YAMAHA_CONFIG "id1main" state_idle) = 3%nat)
    by (vm_compute; reflexivity).
  rewrite E. lia.
Qed.

Ltac solve_no_failed :=
  unfold no_failed_branch; run_script;
  repeat match goal with
         | E : settle _ = Rejected _ |- _ => apply settle_not_failed in E
         end;
  (split;
   [ cbn [events snd List.app];
     repeat (apply Forall_cons; [first [reflexivity | assumption]|]); apply Forall_nil
   | cbn [result fst]; first [exact I | reflexivity | assumption] ]).

(** C8: whenever the promise of [sendYamahaRequest] is fulfilled, its
    value has [success] equal to [true], whatever the HTTP status code of
    the response.  Consequently the branches taken when
    [response.success] is false are never run: no caller that tests it
    (the three setters, the volume read-back, the six action handlers
    and the playback functions, hence also the twist and skip handlers)
    ever throws a [Failed to ...] error or writes a [Failed to ...]
    line of such a branch. *)
Theorem fulfilled_response_always_succeeds cfg speakerId deviceId speaker volume_ flag values s :
  (forall ip endpoint data zone_ response,
     result (sendYamahaRequest ip endpoint data zone_ s) = Normal (Fulfilled response) ->
     success response = true) /\
  no_failed_branch (setYamahaVolume cfg speakerId volume_ s) /\
  no_failed_branch (setYamahaPower cfg speakerId flag s) /\
  no_failed_branch (setYamahaMute cfg speakerId flag s) /\
  no_failed_branch (getCurrentVolumeAndUpdate cfg speaker s) /\
  no_failed_branch (handleDeviceVolumeUp cfg deviceId s) /\
  no_failed_branch (handleDeviceVolumeDown cfg deviceId s) /\
  no_failed_branch (handleDeviceMuteToggle cfg deviceId s) /\
  no_failed_branch (handleDevicePowerToggle cfg deviceId s) /\
  no_failed_branch (handleDevicePowerOn cfg deviceId s) /\
  no_failed_branch (handleDevicePowerOff cfg deviceId s) /\
  no_failed_branch (getPlaybackStatus cfg speaker s) /\
  no_failed_branch (pausePlayback speaker s) /\
  no_failed_branch (resumePlayback speaker s) /\
  no_failed_branch (skipToNextTrack speaker s) /\
  no_failed_branch (handleYamahaSpeakerUpdate cfg deviceId values s) /\
  no_failed_branch (handleSkipDeviceUpdate cfg deviceId values s).
Proof.
  split.
  { intros ip endpoint data zone_ response H.
    rewrite sendYamahaRequest_run in H. unfold result in H; cbn [fst] in H.
    injection H as H. exact (settle_success _ _ H). }
  repeat (split; [solve_no_failed|]).
  pose proof (skip_handler_events cfg deviceId values s) as H. cbv zeta in H.
  unfold no_failed_branch.
  destruct H as [(Hres & Hev) | (Hres & Hev)]; rewrite Hres; (split; [|exact I]).
  - destruct Hev as [(line & Hev) | [Hev | Hev]]; rewrite Hev; repeat constructor.
  - rewrite Hev. apply Forall_app. split; [|repeat constructor].
    apply (skip_loop cfg (num_sub (toNumber (v_volume values)) (Num (1 # 2)))
             (speakers cfg) s).
Qed.

Lemma fulfilled_response_always_succeeds_witness :
  exists response,
    result (sendYamahaRequest "RECEIVER1_IP_ADDRESS" "/YamahaExtendedControl/v1/main/getStatus"
              None main (state_with [answer_500])) = Normal (Fulfilled response) /\
    status (data response) = 500 /\
    success response = true.
Proof.
  eexists. split; [reflexivity|]. split; [reflexivity|].
  apply (proj1 (fulfilled_response_always_succeeds YAMAHA_CONFIG "id1main" "id1main"
                  speaker_main (Num (40 # 1)) true (twist (1 # 2))
                  (state_with [answer_500]))
           "RECEIVER1_IP_ADDRESS" "/YamahaExtendedControl/v1/main/getStatus" None main).
  reflexivity.
Defined.

(** The lines and errors of the branches for a false [success] are the
    ones [failed_event] and [failed_error] recognise. *)
Lemma failed_branches_recognised (n : string) :
  failed_error (Error ("Failed to set volume for " ++ n)) = true /\
  failed_error (Error ("Failed to set power for " ++ n)) = true /\
  failed_error (Error ("Failed to set mute for " ++ n)) = true /\
  forallb (fun t => failed_event (ConsoleError [AStr (t ++ n)]))
    ["❌ Failed to get current volume for "; "❌ Failed to toggle mute for ";
     "❌ Failed to get mute status for "; "❌ Failed to toggle power for ";
     "❌ Failed to get power status for "; "❌ Failed to turn on ";
     "❌ Failed to turn off "; "❌ Failed to get playback status for ";
     "❌ Failed to pause "; "❌ Failed to resume "; "❌ Failed to skip track on "] = true.
Proof. repeat split. Qed.

(** ** Parsing and dispatching action messages *)

Lemma split_space_nonempty (s : string) : split_space s <> [].
Proof.
  destruct s as [|c r]; simpl; [discriminate|].
  destruct (Ascii.eqb c " "); [discriminate|].
  destruct (split_space r); discriminate.
Qed.

Lemma join_split_space (s : string) : join " " (split_space s) = s.
Proof.
  unfold join. induction s as [|c r IH]; [reflexivity|].
  cbn [split_space].
  pose proof (split_space_nonempty r) as Hne.
  destruct (Ascii.eqb c " ") eqn:Ec.
  - apply Ascii.eqb_eq in Ec. subst c.
    destruct (split_space r) as [|p ps]; [contradiction|].
    change (String.concat " " ("" :: p :: ps))
      with ("" ++ " " ++ String.concat " " (p :: ps)).
    rewrite IH. reflexivity.
  - destruct (split_space r) as [|p ps]; [contradiction|].
    destruct ps as [|q qs].
    + cbn in IH. subst r. reflexivity.
    + change (String.concat " " (String c p :: q :: qs))
        with (String c (p ++ " " ++ String.concat " " (q :: qs))).
      change (String.concat " " (p :: q :: qs))
        with (p ++ " " ++ String.concat " " (q :: qs)) in IH.
      now rewrite IH.
Qed.

(** With at least two parts, the lower-cased message is the first part,
    a space, and the remaining parts joined again. *)
Lemma two_parts_message (s : string) :
  (2 <= List.length (split_space s))%nat ->
  s = hd "" (split_space s) ++ " " ++ join " " (tl (split_space s)).
Proof.
  intros H. pose proof (join_split_space s) as J.
  destruct (split_space s) as [|p [|q qs]]; cbn in H; try lia.
  cbn [hd tl]. unfold join in *.
  change (String.concat " " (p :: q :: qs))
    with (p ++ " " ++ String.concat " " (q :: qs)) in J.
  now rewrite J.
Qed.

(** C2, as the code has it: the action-message handler splits the
    lower-cased message at spaces.  With fewer than two parts it
    dispatches nothing (it logs that the format is invalid).  With at
    least two parts the first part is the device id and the remaining
    parts, joined again, are the action, so that the lower-cased message
    reads [device-id action]; when the device id is that of a configured
    speaker the handler calls exactly the one handler function of the
    action among [volume up], [volume down], [mute], [power], [on] and
    [off], and only logs for any other action; when the device id is not
    configured it calls no handler and logs [Unknown device]. *)
Theorem action_message_dispatch cfg message s :
  let parts := split_space (toLowerCase message) in
  let deviceId := hd "" parts in
  let action := join " " (tl parts) in
  let run := onActionMessage cfg message s in
  ((List.length parts < 2)%nat ->
   run = (log_received message ;;
          console_log [AStr ("Invalid action message format. Expected: " ++ dquote
                             ++ "{device-id} {action}" ++ dquote)]) s) /\
  ((2 <= List.length parts)%nat -> toLowerCase message = deviceId ++ " " ++ action) /\
  ((2 <= List.length parts)%nat -> find_speaker cfg deviceId = None ->
   run = (log_received message ;; console_log [AStr ("Unknown device: " ++ deviceId)]) s) /\
  ((2 <= List.length parts)%nat -> find_speaker cfg deviceId <> None ->
   (action = "volume up" ->
    run = (log_received message ;; handleDeviceVolumeUp cfg deviceId) s) /\
   (action = "volume down" ->
    run = (log_received message ;; handleDeviceVolumeDown cfg deviceId) s) /\
   (action = "mute" ->
    run = (log_received message ;; handleDeviceMuteToggle cfg deviceId) s) /\
   (action = "power" ->
    run = (log_received message ;; handleDevicePowerToggle cfg deviceId) s) /\
   (action = "on" ->
    run = (log_received message ;; handleDevicePowerOn cfg deviceId) s) /\
   (action = "off" ->
    run = (log_received message ;; handleDevicePowerOff cfg deviceId) s) /\
   (~ In action known_actions ->
    run = (log_received message ;;
           console_log [AStr ("Unknown action for device " ++ deviceId ++ ": " ++ action)]) s)).
Proof.
  intros parts deviceId action run.
  assert (Hrun : run = (log_received message ;;
                        if Nat.leb 2 (List.length parts) then
                          match find_speaker cfg deviceId with
                          | None => console_log [AStr ("Unknown device: " ++ deviceId)]
                          | Some speaker =>
                              if String.eqb action "volume up" then handleDeviceVolumeUp cfg deviceId
                              else if String.eqb action "volume down"
                                   then handleDeviceVolumeDown cfg deviceId
                              else if String.eqb action "mute"
                                   then handleDeviceMuteToggle cfg deviceId
                              else if String.eqb action "power"
                                   then handleDevicePowerToggle cfg deviceId
                              else if String.eqb action "on" then handleDevicePowerOn cfg deviceId
                              else if String.eqb action "off"
                                   then handleDevicePowerOff cfg deviceId
                              else console_log [AStr ("Unknown action for device " ++ deviceId
                                                      ++ ": " ++ action)]
                          end
                        else
                          console_log [AStr ("Invalid action message format. Expected: "
                                             ++ dquote ++ "{device-id} {action}" ++ dquote)]) s)
    by reflexivity.
  split; [|split; [|split]].
  - intros H. apply Nat.leb_gt in H. rewrite Hrun. unfold bind. now rewrite H.
  - intros H. now apply two_parts_message.
  - intros H F. apply Nat.leb_le in H. rewrite Hrun. unfold bind. now rewrite H, F.
  - intros H F. apply Nat.leb_le in H.
    destruct (find_speaker cfg deviceId) as [speaker|] eqn:E; [clear F|contradiction].
    rewrite Hrun. unfold bind. rewrite H.
    repeat split; try (intros ->; reflexivity).
    intros Hnot. unfold known_actions in Hnot. cbn [In] in Hnot.
    repeat match goal with
           | |- context [String.eqb action ?a] =>
               destruct (String.eqb_spec action a) as [Heq|_];
               [exfalso; apply Hnot; rewrite Heq; tauto|]
           end.
    reflexivity.
Qed.

Lemma action_message_dispatch_witness :
  onActionMessage YAMAHA_CONFIG "ID1Main Volume Up" state_idle
  = (log_received "ID1Main Volume Up" ;; handleDeviceVolumeUp YAMAHA_CONFIG "id1main")
      state_idle /\
  onActionMessage YAMAHA_CONFIG "mute" state_idle
  = (log_received "mute" ;;
     console_log [AStr ("Invalid action message format. Expected: " ++ dquote
                        ++ "{device-id} {action}" ++ dquote)]) state_idle.
Proof.
  pose proof (action_message_dispatch YAMAHA_CONFIG "ID1Main Volume Up" state_idle) as T.
  pose proof (action_message_dispatch YAMAHA_CONFIG "mute" state_idle) as U.
  cbv zeta in T, U. split.
  - destruct T as (_ & _ & _ & T).
    apply T.
    + vm_compute. repeat constructor.
    + vm_compute. discriminate.
    + vm_compute. reflexivity.
  - destruct U as (U & _). apply U. vm_compute. repeat constructor.
Defined.

(** Against C2 as stated: the message [kitchen mute] has two parts and
    the action [mute], yet the mute handler is not called, because no
    speaker is configured under [kitchen]: the run ends with the
    [Unknown device] line and differs from a call of the handler. *)
Lemma unknown_device_action_calls_no_handler :
  let message := "kitchen mute" in
  let parts := split_space (toLowerCase message) in
  List.length parts = 2%nat /\
  join " " (tl parts) = "mute" /\
  events (onActionMessage YAMAHA_CONFIG message state_idle)
  = [ConsoleLog [AStr "Received action message:"; AStr message];
     ConsoleLog [AStr "Unknown device: kitchen"]] /\
  onActionMessage YAMAHA_CONFIG message state_idle
  <> (log_received message ;; handleDeviceMuteToggle YAMAHA_CONFIG (hd "" parts)) state_idle.
Proof.
  cbv zeta. split; [reflexivity|]. split; [reflexivity|]. split; [reflexivity|].
  vm_compute. discriminate.
Qed.

Lemma sendYamahaRequest_timeout_witness :
  result (sendYamahaRequest "RECEIVER1_IP_ADDRESS" "/YamahaExtendedControl/v1/main/getStatus"
            None main (state_with [answer_late]))
  = Normal (Rejected (Error "Request timeout")) /\
  result (sendYamahaRequest "RECEIVER1_IP_ADDRESS" "/YamahaExtendedControl/v1/main/getStatus"
            None main (state_with [answer_error]))
  = Normal (Rejected (Error "HTTP request failed: ECONNREFUSED")) /\
  (exists response,
     result (sendYamahaRequest "RECEIVER1_IP_ADDRESS"
               "/YamahaExtendedControl/v1/main/getStatus" None main (state_with [answer_ok]))
     = Normal (Fulfilled response)).
Proof.
  split; [|split].
  - apply (sendYamahaRequest_timeout "RECEIVER1_IP_ADDRESS"
             "/YamahaExtendedControl/v1/main/getStatus" None main (state_with [answer_late])).
    reflexivity.
  - apply (sendYamahaRequest_timeout "RECEIVER1_IP_ADDRESS"
             "/YamahaExtendedControl/v1/main/getStatus" None main (state_with [answer_error]));
      reflexivity.
  - apply (sendYamahaRequest_timeout "RECEIVER1_IP_ADDRESS"
             "/YamahaExtendedControl/v1/main/getStatus" None main (state_with [answer_ok]));
      reflexivity.
Defined.

(** ** Further properties: strings and messages *)





Lemma lower_ascii_space (c : ascii) : Ascii.eqb (lower_ascii c) " " = Ascii.eqb c " ".
Proof. destruct c as [[] [] [] [] [] [] [] []]; reflexivity. Qed.

Lemma lower_ascii_idem (c : ascii) : lower_ascii (lower_ascii c) = lower_ascii c.
Proof. destruct c as [[] [] [] [] [] [] [] []]; reflexivity. Qed.

Lemma toLowerCase_idem (s : string) : toLowerCase (toLowerCase s) = toLowerCase s.
Proof.
  induction s as [|c r IH]; [reflexivity|].
  cbn [toLowerCase]. now rewrite lower_ascii_idem, IH.
Qed.

Lemma count_spaces_lower (s : string) : count_spaces (toLowerCase s) = count_spaces s.
Proof.
  induction s as [|c r IH]; [reflexivity|].
  cbn [toLowerCase count_spaces]. now rewrite lower_ascii_space, IH.
Qed.

Lemma split_space_length (s : string) :
  List.length (split_space s) = S (count_spaces s).
Proof.
  induction s as [|c r IH]; [reflexivity|].
  cbn [split_space count_spaces].
  destruct (Ascii.eqb c " ").
  - cbn [List.length]. now rewrite IH.
  - destruct (split_space r) as [|p ps]; [discriminate IH|].
    cbn [List.length] in *. exact IH.
Qed.

Lemma split_space_lower (s : string) :
  split_space (toLowerCase s) = map toLowerCase (split_space s).
Proof.
  induction s as [|c r IH]; [reflexivity|].
  cbn [toLowerCase split_space]. rewrite lower_ascii_space, IH.
  destruct (Ascii.eqb c " "); [reflexivity|].
  pose proof (split_space_nonempty r) as Hne.
  destruct (split_space r) as [|p ps]; [contradiction|]. reflexivity.
Qed.

(** The device-id token of a message is in lower case. *)
Lemma device_token_lower (message : string) :
  let d := hd "" (split_space (toLowerCase message)) in toLowerCase d = d.
Proof.
  cbv zeta. rewrite split_space_lower.
  pose proof (split_space_nonempty message) as Hne.
  destruct (split_space message) as [|p ps]; [contradiction|].
  cbn [map hd]. apply toLowerCase_idem.
Qed.

(** X3: the handler splits a message into one more part than it has
    spaces, so a message without any space (such as [mute] alone) is
    never dispatched: it is answered by the two console lines, with no
    lookup, no request and no change of state. *)
Theorem action_message_needs_a_space cfg message s :
  List.length (split_space (toLowerCase message)) = S (count_spaces message) /\
  (count_spaces message = 0%nat ->
   onActionMessage cfg message s
   = (Normal tt, s, [ConsoleLog [AStr "Received action message:"; AStr message];
                     invalid_format_line])).
Proof.
  assert (L : List.length (split_space (toLowerCase message)) = S (count_spaces message))
    by (now rewrite split_space_length, count_spaces_lower).
  split; [exact L|].
  intros H. unfold onActionMessage. rewrite L, H.
  reflexivity.
Qed.

Lemma action_message_needs_a_space_witness :
  onActionMessage YAMAHA_CONFIG "Mute" state_idle
  = (Normal tt, state_idle, [ConsoleLog [AStr "Received action message:"; AStr "Mute"];
                             invalid_format_line]).
Proof.
  apply (action_message_needs_a_space YAMAHA_CONFIG "Mute" state_idle). reflexivity.
Defined.

(** X4: action messages are case-insensitive.  A message and its
    lower-case form are handled alike: same result, same final state and,
    after the first console line (which echoes the message as received),
    the same effects. *)
Theorem action_messages_are_case_insensitive cfg message s :
  let given := onActionMessage cfg message s in
  let lowered := onActionMessage cfg (toLowerCase message) s in
  result given = result lowered /\
  state given = state lowered /\
  tl (events given) = tl (events lowered).
Proof.
  cbv zeta. unfold onActionMessage. rewrite toLowerCase_idem.
  unfold bind, console_log at 1 5 9 13 17 21, emit. cbv beta iota zeta.
  match goal with
  | |- context [(if ?c then ?a else ?b) s] => destruct ((if c then a else b) s) as [[r st] evs]
  end.
  repeat split.
Qed.

(** X5: a speaker is matched against the lower-cased device-id token,
    letter for letter.  When no configured id is in lower case, no
    action message ever reaches a handler: every message gets the
    invalid-format or the unknown-device line, no request is issued and
    the state stays as it was. *)
Theorem mixed_case_ids_are_unreachable cfg message s :
  (forall sp, In sp (speakers cfg) -> toLowerCase (id sp) <> id sp) ->
  let run := onActionMessage cfg message s in
  let received := ConsoleLog [AStr "Received action message:"; AStr message] in
  let deviceId := hd "" (split_space (toLowerCase message)) in
  result run = Normal tt /\ state run = s /\
  (events run = [received; invalid_format_line] \/
   events run = [received; ConsoleLog [AStr ("Unknown device: " ++ deviceId)]]).
Proof.
  intros Hids run received deviceId.
  assert (F : find_speaker cfg deviceId = None).
  { apply find_speaker_none. intros sp Hin Heq. apply (Hids sp Hin).
    rewrite Heq. apply device_token_lower. }
  subst run. unfold onActionMessage. fold deviceId. rewrite F.
  unfold bind, console_log, emit.
  destruct (Nat.leb 2 _); cbn; auto.
Qed.

Lemma mixed_case_ids_are_unreachable_witness :
  events (onActionMessage config_mixed_case "LivingRoom on" state_idle)
  = [ConsoleLog [AStr "Received action message:"; AStr "LivingRoom on"];
     ConsoleLog [AStr "Unknown device: livingroom"]].
Proof.
  destruct (mixed_case_ids_are_unreachable config_mixed_case "LivingRoom on" state_idle)
    as (_ & _ & [H|H]).
  - intros sp [<-|[]]. vm_compute. discriminate.
  - vm_compute in H. discriminate H.
  - exact H.
Defined.
Lemma request_of_url ip endpoint data zone_ :
  url (request_of ip endpoint data zone_)
  = "http://" ++ ip ++ endpoint ++ query_string_spec data.
Proof.
  unfold request_of. cbn [events snd sendYamahaRequest new_Promise url].
  destruct data as [[v p m e pb]|]; cbn [query_string_spec].
  - destruct v, p, m, e, pb;
      cbn -[append encodeURIComponent string_of_Rounded];
      rewrite ?append_assoc, ?append_empty; reflexivity.
  - now rewrite !append_empty.
Qed.

Lemma url_no_data ip endpoint zone_ :
  url (request_of ip endpoint None zone_) = "http://" ++ ip ++ endpoint.
Proof. rewrite request_of_url. cbn [query_string_spec]. now rewrite append_empty. Qed.

Lemma url_volume ip endpoint zone_ v :
  url (request_of ip endpoint
         (Some {| d_volume := Some v; d_power := None; d_mute := None; d_enable := None;
                  d_playback := None |}) zone_)
  = "http://" ++ ip ++ endpoint ++ "?volume=" ++ encodeURIComponent (string_of_Rounded v).
Proof. rewrite request_of_url. reflexivity. Qed.

Lemma url_power ip endpoint zone_ p :
  url (request_of ip endpoint
         (Some {| d_volume := None; d_power := Some p; d_mute := None; d_enable := None;
                  d_playback := None |}) zone_)
  = "http://" ++ ip ++ endpoint ++ "?power=" ++ encodeURIComponent p.
Proof. rewrite request_of_url. reflexivity. Qed.

Lemma url_mute ip endpoint zone_ p :
  url (request_of ip endpoint
         (Some {| d_volume := None; d_power := None; d_mute := Some p; d_enable := None;
                  d_playback := None |}) zone_)
  = "http://" ++ ip ++ endpoint ++ "?mute=" ++ encodeURIComponent p.
Proof. rewrite request_of_url. reflexivity. Qed.

Lemma url_enable ip endpoint zone_ p :
  url (request_of ip endpoint
         (Some {| d_volume := None; d_power := None; d_mute := None; d_enable := Some p;
                  d_playback := None |}) zone_)
  = "http://" ++ ip ++ endpoint ++ "?enable=" ++ encodeURIComponent p.
Proof. rewrite request_of_url. reflexivity. Qed.

Lemma url_playback ip endpoint zone_ p :
  url (request_of ip endpoint (playbackData p) zone_)
  = "http://" ++ ip ++ endpoint ++ "?playback=" ++ encodeURIComponent p.
Proof. rewrite request_of_url. reflexivity. Qed.

(** Symbolic execution down to the list of URLs of a run. *)
Ltac run_urls :=
  unfold urls; run_script;
  cbn [events snd requests List.app map fst];
  rewrite ?url_no_data, ?url_volume, ?url_power, ?url_mute, ?url_enable, ?url_playback.





(** Making use of what is assumed about the answers. *)
Ltac use_answers :=
  repeat match goal with
         | H : Fulfilled _ = Fulfilled _ |- _ => injection H as H; subst
         | H : Rejected _ = Rejected _ |- _ => injection H as H; subst
         | H : Rejected _ = Fulfilled _ |- _ => discriminate H
         | H : Fulfilled _ = Rejected _ |- _ => discriminate H
         end;
  try congruence.











(** X9: a status without a volume is not detected.  When the status
    request is answered with a JSON object that has no volume, both
    volume buttons go on and ask the receiver for the volume [NaN]. *)
Theorem volume_buttons_send_NaN_without_status_volume cfg deviceId speaker s response o :
  cooldown_active s = false ->
  find_speaker cfg deviceId = Some speaker ->
  settle (hd Never (network s)) = Fulfilled response ->
  body (data response) = Object o ->
  j_volume o = None ->
  nth_error (urls (handleDeviceVolumeUp cfg deviceId s)) 1
  = Some ("http://" ++ ip speaker ++ volume (endpoints cfg (zone speaker)) ++ "?volume=NaN") /\
  nth_error (urls (handleDeviceVolumeDown cfg deviceId s)) 1
  = Some ("http://" ++ ip speaker ++ volume (endpoints cfg (zone speaker)) ++ "?volume=NaN").
Proof.
  unfold cooldown_active. intros C F E B V.
  split; run_urls; use_answers.
  all: match goal with
       | B1 : body _ = Object ?a, B2 : body _ = Object ?b |- _ =>
           assert (a = b) by congruence; subst
       end.
  all: rewrite V; reflexivity.
Qed.

Lemma volume_buttons_send_NaN_without_status_volume_witness :
  nth_error (urls (handleDeviceVolumeUp YAMAHA_CONFIG "id1main"
                     (state_with [answer_with status_without_volume; answer_ok; answer_ok]))) 1
  = Some "http://RECEIVER1_IP_ADDRESS/YamahaExtendedControl/v1/main/setVolume?volume=NaN".
Proof.
  eapply (volume_buttons_send_NaN_without_status_volume YAMAHA_CONFIG "id1main" speaker_main
            (state_with [answer_with status_without_volume; answer_ok; answer_ok]) _
            status_without_volume); reflexivity.
Defined.
(** ** Further properties: the twist handler *)





(** X11: the variable [currentVolume] takes the percentage of a twist
    exactly when the set-volume request of that twist was fulfilled,
    whether or not reading the volume back succeeded; a twist without a
    volume, one blocked by the cooldown, one for an unknown speaker and
    one whose request was rejected leave it as it was. *)
Theorem twist_records_volume_when_set cfg deviceId values s :
  currentVolume (state (handleYamahaSpeakerUpdate cfg deviceId values s))
  = match v_volume values, find_speaker cfg deviceId with
    | Some q, Some _ =>
        if negb (cooldown_active s) && is_fulfilled (settle (hd Never (network s)))
        then Math_round (num_mul (Num q) (Num (100 # 1)))
        else currentVolume s
    | _, _ => currentVolume s
    end.
Proof.
  match goal with |- _ = ?r => set (rhs := r) end.
  run_script; subst rhs; unfold cooldown_active;
    repeat match goal with
           | H : ?x = _ |- context [?x] => rewrite H
           end;
    try destruct (find_speaker cfg deviceId); reflexivity.
Qed.
(** ** Further properties: setters, toggles and power *)

(** X12: a speaker id that is not in the table never causes a request.
    The three setters throw [Speaker ... not found] at once, with no
    effect; a twist for such an id (outside the cooldown) only logs that
    error; each action handler called with such an id only logs
    [Device not found]. In every case the state is unchanged. *)
Theorem unknown_speaker_sends_nothing cfg speakerId volume_ flag q s :
  find_speaker cfg speakerId = None ->
  let not_found := Error ("Speaker " ++ speakerId ++ " not found") in
  let device_not_found := ConsoleError [AStr ("Device not found: " ++ speakerId)] in
  setYamahaVolume cfg speakerId volume_ s = (Throw not_found, s, []) /\
  setYamahaPower cfg speakerId flag s = (Throw not_found, s, []) /\
  setYamahaMute cfg speakerId flag s = (Throw not_found, s, []) /\
  (cooldown_active s = false ->
   handleYamahaSpeakerUpdate cfg speakerId (twist q) s
   = (Normal tt, s,
      [ConsoleError [AStr ("❌ Failed to update Yamaha speaker " ++ speakerId ++ ":");
                     AErr not_found]]) /\
   handleDeviceVolumeUp cfg speakerId s = (Normal tt, s, [device_not_found]) /\
   handleDeviceVolumeDown cfg speakerId s = (Normal tt, s, [device_not_found])) /\
  handleDeviceMuteToggle cfg speakerId s = (Normal tt, s, [device_not_found]) /\
  handleDevicePowerToggle cfg speakerId s = (Normal tt, s, [device_not_found]) /\
  handleDevicePowerOn cfg speakerId s = (Normal tt, s, [device_not_found]) /\
  handleDevicePowerOff cfg speakerId s = (Normal tt, s, [device_not_found]).
Proof.
  intros F not_found device_not_found. unfold cooldown_active.
  repeat split; try intros C; unfold twist, handleYamahaSpeakerUpdate; cbn [v_volume];
    run_script; reflexivity.
Qed.

Lemma unknown_speaker_sends_nothing_witness :
  setYamahaPower YAMAHA_CONFIG "kitchen" true state_idle
  = (Throw (Error "Speaker kitchen not found"), state_idle, []) /\
  handleDevicePowerOn YAMAHA_CONFIG "kitchen" state_idle
  = (Normal tt, state_idle, [ConsoleError [AStr "Device not found: kitchen"]]).
Proof.
  pose proof (unknown_speaker_sends_nothing YAMAHA_CONFIG "kitchen" (Num (40 # 1)) true
                (1 # 2) state_idle eq_refl) as H.
  cbv zeta in H. split; apply H.
Defined.

(** X13: the setters for power and mute on a configured speaker issue
    exactly one request and pass its outcome on: the response when the
    request is fulfilled, the very error of the rejection (logged once)
    otherwise.  [setYamahaPower] sends [power=on] or [power=standby];
    [setYamahaMute] sends its flag under the key [mute]. *)
Theorem power_and_mute_setters cfg speakerId speaker flag s :
  find_speaker cfg speakerId = Some speaker ->
  let outcome := match settle (hd Never (network s)) with
                 | Fulfilled response => Normal response
                 | Rejected e => Throw e
                 end in
  (urls (setYamahaPower cfg speakerId flag s)
   = [power_url cfg speaker (if flag then "on" else "standby")] /\
   result (setYamahaPower cfg speakerId flag s) = outcome) /\
  (urls (setYamahaMute cfg speakerId flag s)
   = ["http://" ++ ip speaker ++ mute (endpoints cfg (zone speaker))
      ++ "?mute=" ++ (if flag then "true" else "false")] /\
   result (setYamahaMute cfg speakerId flag s) = outcome).
Proof.
  intros F outcome. subst outcome.
  repeat split; run_urls; reflexivity.
Qed.

Lemma power_and_mute_setters_witness :
  urls (setYamahaPower YAMAHA_CONFIG "id1main" false state_idle)
  = ["http://RECEIVER1_IP_ADDRESS/YamahaExtendedControl/v1/main/setPower?power=standby"] /\
  urls (setYamahaMute YAMAHA_CONFIG "id1main" true state_idle)
  = ["http://RECEIVER1_IP_ADDRESS/YamahaExtendedControl/v1/main/setMute?mute=true"].
Proof.
  pose proof (power_and_mute_setters YAMAHA_CONFIG "id1main" speaker_main false state_idle
                eq_refl) as P.
  pose proof (power_and_mute_setters YAMAHA_CONFIG "id1main" speaker_main true state_idle
                eq_refl) as Q.
  cbv zeta in P, Q. split; [apply P | apply Q].
Defined.
(** X14: the toggles act on what the status reports.  When the speaker
    is configured and its status request is answered with a JSON object,
    the mute toggle asks for [enable=false] if the status says muted and
    for [enable=true] otherwise, and the power toggle asks for
    [power=standby] if the status says [on] and for [power=on] in every
    other case (also when the status carries no power at all). *)
Theorem toggles_follow_status cfg deviceId speaker s response o :
  find_speaker cfg deviceId = Some speaker ->
  settle (hd Never (network s)) = Fulfilled response ->
  body (data response) = Object o ->
  urls (handleDeviceMuteToggle cfg deviceId s)
  = [status_url cfg speaker; mute_url cfg speaker (if j_mute o then "false" else "true")] /\
  urls (handleDevicePowerToggle cfg deviceId s)
  = [status_url cfg speaker;
     power_url cfg speaker (match j_power o with
                            | Some p => if String.eqb p "on" then "standby" else "on"
                            | None => "on"
                            end)].
Proof.
  intros F E B. unfold power_is_on.
  split; run_urls; use_answers.
  all: match goal with
       | B1 : body _ = Object ?a, B2 : body _ = Object ?b |- _ =>
           assert (a = b) by congruence; subst
       end.
  all: repeat match goal with
              | H : ?x = _ |- context [?x] => rewrite H
              end.
  all: try reflexivity.
  all: unfold power_is_on in *;
    repeat match goal with
           | H : context [j_power ?o] |- _ => destruct (j_power o)
           | H : context [j_mute ?o] |- _ => destruct (j_mute o)
           end;
    cbn in *; try congruence.
  all: repeat match goal with
              | H : ?x = _ |- context [?x] => rewrite H
              | H : negb ?x = _ |- context [?x] => destruct x; cbn in H; try discriminate H
              end; try reflexivity.
Qed.

Lemma toggles_follow_status_witness :
  urls (handleDeviceMuteToggle YAMAHA_CONFIG "id1main" state_idle)
  = ["http://RECEIVER1_IP_ADDRESS/YamahaExtendedControl/v1/main/getStatus";
     "http://RECEIVER1_IP_ADDRESS/YamahaExtendedControl/v1/main/setMute?enable=true"] /\
  urls (handleDevicePowerToggle YAMAHA_CONFIG "id1main" state_idle)
  = ["http://RECEIVER1_IP_ADDRESS/YamahaExtendedControl/v1/main/getStatus";
     "http://RECEIVER1_IP_ADDRESS/YamahaExtendedControl/v1/main/setPower?power=standby"].
Proof.
  eapply (toggles_follow_status YAMAHA_CONFIG "id1main" speaker_main state_idle _
            status_object); reflexivity.
Defined.

(** X15: the cooldown gates volume and playback only.  Whatever the
    state, also while the cooldown is active, power-on and power-off on
    a configured speaker issue their one request ([power=on],
    [power=standby]) without asking for the status first, and the two
    toggles issue at least their status request. *)
Theorem power_and_mute_ignore_cooldown cfg deviceId speaker s :
  find_speaker cfg deviceId = Some speaker ->
  urls (handleDevicePowerOn cfg deviceId s) = [power_url cfg speaker "on"] /\
  urls (handleDevicePowerOff cfg deviceId s) = [power_url cfg speaker "standby"] /\
  hd_error (urls (handleDeviceMuteToggle cfg deviceId s)) = Some (status_url cfg speaker) /\
  hd_error (urls (handleDevicePowerToggle cfg deviceId s)) = Some (status_url cfg speaker).
Proof.
  intros F. repeat split; run_urls; reflexivity.
Qed.

Lemma power_and_mute_ignore_cooldown_witness :
  cooldown_active state_cooling = true /\
  urls (handleDevicePowerOff YAMAHA_CONFIG "id1main" state_cooling)
  = ["http://RECEIVER1_IP_ADDRESS/YamahaExtendedControl/v1/main/setPower?power=standby"].
Proof.
  split; [reflexivity|].
  apply (power_and_mute_ignore_cooldown YAMAHA_CONFIG "id1main" speaker_main state_cooling).
  reflexivity.
Defined.
(** ** Further properties: playback control *)


(** X17: a speaker that is not switched on gets no playback command.
    When its status request is answered with a JSON object whose power
    is not [on], the pass ends after that one request, whichever way the
    skip device was twisted. *)
Theorem skip_pass_leaves_standby_speaker_alone cfg volumeChange speaker s response o :
  settle (hd Never (network s)) = Fulfilled response ->
  body (data response) = Object o ->
  power_is_on o = false ->
  urls (skip_one_speaker cfg volumeChange speaker s) = [status_url cfg speaker].
Proof.
  intros E B P. unfold skip_one_speaker. run_urls; use_answers.
  all: match goal with
       | B1 : body _ = Object ?a, B2 : body _ = Object ?b |- _ =>
           assert (a = b) by congruence; subst
       end.
  all: try reflexivity.
  all: rewrite P in *; discriminate.
Qed.

Lemma skip_pass_leaves_standby_speaker_alone_witness :
  urls (skip_one_speaker YAMAHA_CONFIG (Num (4 # 10)) speaker_main
          (state_with [answer_with status_standby; answer_ok; answer_ok]))
  = ["http://RECEIVER1_IP_ADDRESS/YamahaExtendedControl/v1/main/getStatus"].
Proof.
  eapply (skip_pass_leaves_standby_speaker_alone YAMAHA_CONFIG (Num (4 # 10)) speaker_main
            (state_with [answer_with status_standby; answer_ok; answer_ok]) _ status_standby);
    reflexivity.
Defined.

(** X18: what a pass does to a speaker that is on.  When the status
    request is answered with a JSON object whose power is [on] and the
    play-info request with a JSON object, the pass sends the playback
    command that [playback_command] gives for the twist and the reported
    playback ([unknown] when none is reported), or none. *)
Theorem skip_pass_follows_playback cfg volumeChange speaker s r1 o1 r2 o2 :
  settle (hd Never (network s)) = Fulfilled r1 ->
  body (data r1) = Object o1 ->
  power_is_on o1 = true ->
  settle (hd Never (network (after_request s))) = Fulfilled r2 ->
  body (data r2) = Object o2 ->
  urls (skip_one_speaker cfg volumeChange speaker s)
  = (status_url cfg speaker :: playInfo_url speaker ::
     match playback_command volumeChange (or_unknown (j_playback o2)) with
     | Some p => [playback_url speaker p]
     | None => []
     end).
Proof.
  intros E1 B1 P E2 B2. unfold skip_one_speaker, playback_command.
  match goal with |- _ = ?r => set (rhs := r) end.
  run_urls; use_answers.
  all: repeat match goal with
              | Ba : body ?x = Object ?a, Bb : body ?x = Object ?b |- _ =>
                  assert (a = b) by congruence; subst; clear Bb
              end.
  all: try (rewrite P in *; discriminate).
  all: subst rhs;
    repeat match goal with
           | H : ?x = _ |- context [?x] => rewrite H
           end;
    reflexivity.
Qed.

Lemma skip_pass_follows_playback_witness :
  urls (skip_one_speaker YAMAHA_CONFIG (Num (4 # 10)) speaker_main
          (state_with [answer_ok; answer_with (play_info "pause"); answer_ok]))
  = ["http://RECEIVER1_IP_ADDRESS/YamahaExtendedControl/v1/main/getStatus";
     "http://RECEIVER1_IP_ADDRESS/YamahaExtendedControl/v1/netusb/getPlayInfo";
     "http://RECEIVER1_IP_ADDRESS/YamahaExtendedControl/v1/netusb/setPlayback?playback=play"].
Proof.
  eapply (skip_pass_follows_playback YAMAHA_CONFIG (Num (4 # 10)) speaker_main
            (state_with [answer_ok; answer_with (play_info "pause"); answer_ok])
            _ status_object _ (play_info "pause")); reflexivity.
Defined.
Lemma or_unknown_nonempty (x : option string) : or_unknown x <> "".
Proof.
  unfold or_unknown, or_string. destruct x as [p|]; [|discriminate].
  destruct (String.eqb_spec p ""); [discriminate | assumption].
Qed.

(** X19: [getPlaybackStatus] never throws.  It issues the status request
    and at most the play-info request after it, returns a status that is
    never the empty string, and returns [unknown] whenever it has logged
    an error. *)
Theorem getPlaybackStatus_never_throws cfg speaker s :
  let run := getPlaybackStatus cfg speaker s in
  exists playbackStatus,
    result run = Normal playbackStatus /\
    playbackStatus <> "" /\
    (no_error_line (events run) = true \/ playbackStatus = "unknown") /\
    exists k, urls run = firstn (S k) [status_url cfg speaker; playInfo_url speaker].
Proof.
  cbv zeta. run_urls.
  all: eexists; split; [reflexivity|].
  all: split; [try discriminate|].
  all: try (split; [first [left; reflexivity | right; reflexivity]
                   | first [exists 0%nat; reflexivity | exists 1%nat; reflexivity]]).
  apply or_unknown_nonempty.
Qed.

(** X20: [getCurrentVolumeAndUpdate] never throws and issues exactly the
    status request of the speaker.  It returns a volume exactly when the
    request was fulfilled with a JSON object, and it has then set the
    virtual device of that speaker to a hundredth of that volume;
    otherwise it returns nothing, has logged an error and has left the
    virtual devices alone. *)
Theorem getCurrentVolumeAndUpdate_mirrors_status cfg speaker s :
  let run := getCurrentVolumeAndUpdate cfg speaker s in
  urls run = [status_url cfg speaker] /\
  ((exists response o,
      settle (hd Never (network s)) = Fulfilled response /\
      body (data response) = Object o /\
      result run = Normal (Some (toNumber (j_volume o))) /\
      filter is_device_update (events run)
      = [VirtualDeviceUpdateState "Speaker" (id speaker)
           (num_div100 (toNumber (j_volume o)))] /\
      no_error_line (events run) = true) \/
   (result run = Normal None /\
    filter is_device_update (events run) = [] /\
    no_error_line (events run) = false)).
Proof.
  cbv zeta. split; [run_urls; reflexivity|].
  run_script.
  all: try (right; repeat split; reflexivity).
  left. do 2 eexists. repeat split; eassumption || reflexivity.
Qed.
(** ** Further properties: the cooldown *)

Lemma ceil_div1000_spec (n : Z) :
  1000 * (ceil_div1000 n - 1) < n <= 1000 * ceil_div1000 n.
Proof.
  unfold ceil_div1000.
  pose proof (Z.div_mod (- n) 1000 ltac:(lia)) as D.
  pose proof (Z.mod_pos_bound (- n) 1000 ltac:(lia)) as B.
  lia.
Qed.

(** X21: a volume command ignored during the cooldown has one effect
    only, a console line that gives the time left in whole seconds,
    rounded up; when the timestamp is not ahead of the clock that is 1,
    2 or 3 seconds.  The skip device, in the same case, is in addition
    reset to its centre. *)
Theorem blocked_command_reports_seconds_left cfg deviceId q s :
  cooldown_active s = true ->
  lastPlaybackCommandTime s <= clock s ->
  let remaining := PLAYBACK_COOLDOWN_MS - (clock s - lastPlaybackCommandTime s) in
  exists k,
    1 <= k <= 3 /\ 1000 * (k - 1) < remaining <= 1000 * k /\
    handleDeviceVolumeUp cfg deviceId s
    = (Normal tt, s,
       [cooldown_line "Volume up command ignored - playback cooldown active" k]) /\
    handleDeviceVolumeDown cfg deviceId s
    = (Normal tt, s,
       [cooldown_line "Volume down command ignored - playback cooldown active" k]) /\
    handleYamahaSpeakerUpdate cfg deviceId (twist q) s
    = (Normal tt, s,
       [cooldown_line "Volume change ignored - playback cooldown active" k]) /\
    (isPlaybackCommand (twist q) = true ->
     handleSkipDeviceUpdate cfg "skip" (twist q) s
     = (Normal tt, s,
        [cooldown_line "Playback command ignored - cooldown active" k;
         VirtualDeviceUpdateState "Speaker" "skip" (Num (1 # 2))])).
Proof.
  intros C T remaining. unfold cooldown_active in C.
  exists (ceil_div1000 remaining).
  pose proof (ceil_div1000_spec remaining) as S.
  assert (0 < remaining <= 2500).
  { subst remaining. apply Z.ltb_lt in C. unfold PLAYBACK_COOLDOWN_MS in *. lia. }
  split; [lia|]. split; [exact S|].
  subst remaining. unfold cooldown_line.
  split; [|split; [|split]].
  - run_script. reflexivity.
  - run_script. reflexivity.
  - unfold twist, handleYamahaSpeakerUpdate. cbn [v_volume]. run_script. reflexivity.
  - unfold isPlaybackCommand. intros P.
    unfold handleSkipDeviceUpdate. cbn [String.eqb Ascii.eqb Bool.eqb negb]. cbv zeta.
    rewrite P. run_script. reflexivity.
Qed.

Lemma blocked_command_reports_seconds_left_witness :
  handleDeviceVolumeUp YAMAHA_CONFIG "id1main" state_cooling
  = (Normal tt, state_cooling,
     [ConsoleLog [AStr "⏳ Volume up command ignored - playback cooldown active (2s remaining)"]]).
Proof.
  destruct (blocked_command_reports_seconds_left YAMAHA_CONFIG "id1main" (9 # 10)
              state_cooling) as (k & Hk & Hleft & Hup & _).
  - reflexivity.
  - discriminate.
  - change (PLAYBACK_COOLDOWN_MS
            - (clock state_cooling - lastPlaybackCommandTime state_cooling))
      with 1500 in Hleft.
    assert (k = 2) by lia. subst k. exact Hup.
Defined.
Ltac solve_never_not_found :=
  run_script; cbn [events snd List.app];
  repeat (apply Forall_cons; [reflexivity|]); apply Forall_nil.

(** X22: the dispatcher has already looked the speaker up when it calls
    a handler, so the lookup inside the handler cannot fail: no action
    message, whatever it says, makes a handler write its
    [Device not found] line (the line such a handler writes when called
    with an unknown id). *)
Theorem dispatched_handlers_find_their_device cfg message s :
  Forall (fun ev => device_not_found_line ev = false) (events (onActionMessage cfg message s)) /\
  (forall deviceId,
     device_not_found_line (ConsoleError [AStr ("Device not found: " ++ deviceId)]) = true).
Proof.
  split; [|intros deviceId; destruct deviceId; reflexivity].
  unfold onActionMessage.
  set (parts := split_space (toLowerCase message)).
  set (d := hd "" parts). set (a := join " " (tl parts)).
  destruct (Nat.leb 2 (List.length parts));
    [|unfold bind, console_log, emit; cbn; repeat constructor].
  destruct (find_speaker cfg d) as [speaker|] eqn:F;
    [|unfold bind, console_log, emit; cbn; repeat constructor].
  repeat match goal with
         | |- context [if String.eqb a ?x then _ else _] => destruct (String.eqb a x)
         end.
  all: solve_never_not_found.
Qed.
Lemma elapsed_bounds (o : NetOutcome) : 0 <= elapsed o <= 5000.
Proof. destruct o as [|d e r]; cbn [elapsed]; lia. Qed.

Lemma elapsed_timeout (o : NetOutcome) : completed_within o 5000 = false -> elapsed o = 5000.
Proof.
  destruct o as [|d e r]; cbn [elapsed completed_within]; [reflexivity|].
  intros H. apply Z.ltb_ge in H. lia.
Qed.

(** The clock through one pass of the skip-device loop: it never runs
    backwards, and a first request that times out costs 5000 ms. *)
Lemma skip_pass_clock cfg volumeChange speaker s :
  clock s <= clock (state (skip_one_speaker cfg volumeChange speaker s)) /\
  (completed_within (hd Never (network s)) 5000 = false ->
   clock s + 5000 <= clock (state (skip_one_speaker cfg volumeChange speaker s))).
Proof.
  split; [|intros T]; unfold skip_one_speaker; run_script;
    cbn [state fst snd clock after_request];
    repeat match goal with
           | |- context [elapsed ?o] =>
               lazymatch goal with
               | _ : 0 <= elapsed o <= 5000 |- _ => fail
               | _ => pose proof (elapsed_bounds o)
               end
           end;
    try rewrite (elapsed_timeout _ T) in *; lia.
Qed.

Lemma skip_loop_clock cfg volumeChange (l : list Speaker) : forall s,
  clock s <= clock (state (for_of l (skip_one_speaker cfg volumeChange) s)) /\
  (l <> [] -> completed_within (hd Never (network s)) 5000 = false ->
   clock s + 5000 <= clock (state (for_of l (skip_one_speaker cfg volumeChange) s))).
Proof.
  induction l as [|x l IH]; intros s.
  - cbn. split; [lia | intros H; contradiction].
  - cbn [for_of]. unfold bind.
    pose proof (skip_pass_clock cfg volumeChange x s) as (P1 & P2).
    pose proof (skip_one_speaker_pass cfg volumeChange x s) as P. cbv zeta in P.
    destruct P as ((Pres & _) & _).
    destruct (skip_one_speaker cfg volumeChange x s) as [[res st] evs].
    unfold result, state in *; cbn [fst snd] in *. subst res.
    destruct (IH st) as (I1 & _).
    destruct (for_of l (skip_one_speaker cfg volumeChange) st) as [[res2 st2] evs2].
    cbn [fst snd] in *. split; [lia|]. intros _ T. specialize (P2 T). lia.
Qed.

(** X23: the cooldown runs from the moment the playback command was
    read, not from the end of its requests.  After a playback command
    that was not blocked, the timestamp is the clock at the start of the
    handler, so the cooldown still active afterwards is what the
    requests have left of the 2500 ms; when the first request of the
    first speaker times out, nothing is left and the next volume command
    is not blocked. *)
Theorem cooldown_runs_from_start_of_command cfg values s :
  isPlaybackCommand values = true ->
  cooldown_active s = false ->
  let after := state (handleSkipDeviceUpdate cfg "skip" values s) in
  lastPlaybackCommandTime after = clock s /\
  clock s <= clock after /\
  cooldown_active after = (clock after - clock s <? PLAYBACK_COOLDOWN_MS) /\
  (speakers cfg <> [] -> completed_within (hd Never (network s)) 5000 = false ->
   cooldown_active after = false).
Proof.
  unfold isPlaybackCommand, cooldown_active. intros P C.
  unfold handleSkipDeviceUpdate. cbn [String.eqb Ascii.eqb Bool.eqb negb]. cbv zeta.
  rewrite P.
  unfold bind, Date_now, get_lastPlaybackCommandTime, set_lastPlaybackCommandTime,
    console_log, reset_skip_device, virtualDeviceUpdateState, emit, ret.
  cbv beta iota zeta. rewrite C. cbv beta iota zeta.
  set (vc := num_sub (toNumber (v_volume values)) (Num (1 # 2))).
  pose proof (skip_loop cfg vc (speakers cfg) s) as L. cbv zeta in L.
  destruct L as (Lres & _).
  pose proof (skip_loop_clock cfg vc (speakers cfg) s) as (K1 & K2).
  destruct (for_of (speakers cfg) (skip_one_speaker cfg vc) s) as [[res st] evs].
  unfold result, state in *; cbn [fst snd] in *. subst res.
  cbn [lastPlaybackCommandTime clock].
  split; [reflexivity|]. split; [exact K1|]. split; [reflexivity|].
  intros Hne T. specialize (K2 Hne T). apply Z.ltb_ge.
  unfold PLAYBACK_COOLDOWN_MS. cbn [fst snd clock lastPlaybackCommandTime]. lia.
Qed.

Lemma cooldown_runs_from_start_of_command_witness :
  cooldown_active (state (handleSkipDeviceUpdate YAMAHA_CONFIG "skip" (twist (9 # 10))
                            (state_with [answer_late; answer_ok; answer_ok]))) = false.
Proof.
  apply (cooldown_runs_from_start_of_command YAMAHA_CONFIG (twist (9 # 10))
           (state_with [answer_late; answer_ok; answer_ok])).
  - reflexivity.
  - reflexivity.
  - discriminate.
  - reflexivity.
Defined.
(** ** Further properties: virtual devices *)

Lemma for_of_updates (volume_ : Number) (l : list Speaker) (s : State) :
  for_of l (fun speaker => virtualDeviceUpdateState "Speaker" (id speaker) volume_) s
  = (Normal tt, s, map (device_update volume_) l).
Proof.
  induction l as [|x l IH]; [reflexivity|].
  cbn [for_of map]. unfold bind.
  change (virtualDeviceUpdateState "Speaker" (id x) volume_ s)
    with (@Normal unit tt, s, [device_update volume_ x]).
  cbv beta iota. rewrite IH. reflexivity.
Qed.

Lemma filter_zones_length (l : list Speaker) :
  (List.length (filter (fun sp => zone_eqb (zone sp) main) l)
   + List.length (filter (fun sp => zone_eqb (zone sp) zone2) l))%nat
  = List.length l.
Proof.
  induction l as [|x l IH]; [reflexivity|].
  cbn [filter]. destruct (zone x); cbn [zone_eqb List.length]; lia.
Qed.

(** X24: the two state-mirroring helpers only write to virtual devices:
    no request, no console line, no change of state.
    [updateVirtualDeviceStates] updates every configured speaker once,
    in table order; [updateZoneVirtualDeviceStates] updates the speakers
    of the given zone, each once and in table order, and no speaker of
    the other zone; done for both zones it makes as many updates as
    there are speakers. *)
Theorem mirror_helpers_update_each_speaker_once cfg v s :
  updateVirtualDeviceStates cfg v s = (Normal tt, s, map (device_update v) (speakers cfg)) /\
  (forall z,
     updateZoneVirtualDeviceStates cfg z v s
     = (Normal tt, s,
        map (device_update v) (filter (fun sp => zone_eqb (zone sp) z) (speakers cfg)))) /\
  (List.length (events (updateZoneVirtualDeviceStates cfg main v s))
   + List.length (events (updateZoneVirtualDeviceStates cfg zone2 v s)))%nat
  = List.length (speakers cfg).
Proof.
  unfold updateVirtualDeviceStates, updateZoneVirtualDeviceStates. cbv zeta.
  split; [apply for_of_updates|]. split.
  - intros z. apply for_of_updates.
  - rewrite !for_of_updates. unfold events; cbn [snd].
    rewrite !length_map. apply filter_zones_length.
Qed.
Lemma find_speaker_id cfg deviceId speaker :
  find_speaker cfg deviceId = Some speaker -> id speaker = deviceId.
Proof.
  unfold find_speaker. intros F. apply find_some in F.
  now apply String.eqb_eq.
Qed.

Lemma no_update_updates_only (deviceId : string) (evs : list Event) :
  Forall (fun ev => is_device_update ev = false) evs ->
  Forall (fun ev => updates_only deviceId ev = true) evs.
Proof.
  apply Forall_impl. intros ev H. destruct ev; (reflexivity || discriminate H).
Qed.

(** Closing a goal on the updates of a handler run for [d], a variable. *)
Ltac solve_updates cfg d :=
  let F := fresh "F" in
  let I := fresh "I" in
  destruct (find_speaker cfg d) as [?sp|] eqn:F;
  [ pose proof (find_speaker_id _ _ _ F) as I; subst d | ];
  run_script; cbn [events snd List.app];
  repeat (apply Forall_cons;
          [cbn [updates_only]; rewrite ?String.eqb_refl; reflexivity|]);
  apply Forall_nil.

Lemma twist_updates_own_device cfg deviceId values s :
  Forall (fun ev => updates_only deviceId ev = true)
    (events (handleYamahaSpeakerUpdate cfg deviceId values s)).
Proof. solve_updates cfg deviceId. Qed.

Lemma skip_updates_own_device cfg values s :
  Forall (fun ev => updates_only "skip" ev = true)
    (events (handleSkipDeviceUpdate cfg "skip" values s)).
Proof.
  pose proof (skip_handler_events cfg "skip" values s) as H. cbv zeta in H.
  destruct H as [(_ & [(line & Hev) | [Hev | Hev]]) | (_ & Hev)]; rewrite Hev.
  - repeat constructor.
  - repeat constructor.
  - constructor.
  - apply Forall_app. split; [|repeat constructor].
    apply no_update_updates_only.
    apply (skip_loop cfg (num_sub (toNumber (v_volume values)) (Num (1 # 2)))
             (speakers cfg) s).
Qed.

(** X25: a handler writes back only to the virtual device it was called
    for.  The volume buttons and a twist of speaker [d] update no virtual
    device but the speaker-type device [d]; mute and power never update
    a virtual device.  The twist event handler never throws, ignores a
    device that is not of the speaker type altogether, and otherwise
    updates no virtual device but the one that was twisted. *)
Theorem virtual_device_updates_stay_with_device cfg deviceId metaData values s :
  Forall (fun ev => updates_only deviceId ev = true)
    (events (handleDeviceVolumeUp cfg deviceId s)) /\
  Forall (fun ev => updates_only deviceId ev = true)
    (events (handleDeviceVolumeDown cfg deviceId s)) /\
  Forall (fun ev => updates_only deviceId ev = true)
    (events (handleYamahaSpeakerUpdate cfg deviceId values s)) /\
  Forall (fun ev => is_device_update ev = false)
    (events (handleDeviceMuteToggle cfg deviceId s)) /\
  Forall (fun ev => is_device_update ev = false)
    (events (handleDevicePowerToggle cfg deviceId s)) /\
  Forall (fun ev => is_device_update ev = false)
    (events (handleDevicePowerOn cfg deviceId s)) /\
  Forall (fun ev => is_device_update ev = false)
    (events (handleDevicePowerOff cfg deviceId s)) /\
  (let run := onVirtualDeviceUpdate cfg metaData values s in
   result run = Normal tt /\
   Forall (fun ev => updates_only (virtualDeviceId metaData) ev = true) (events run) /\
   (String.eqb (dimmableType metaData) "Speaker" = true \/ run = (Normal tt, s, []))).
Proof.
  split; [solve_updates cfg deviceId|]. split; [solve_updates cfg deviceId|].
  split; [apply twist_updates_own_device|].
  do 4 (split; [run_script; cbn [events snd List.app];
                repeat (apply Forall_cons; [reflexivity|]); apply Forall_nil|]).
  cbv zeta. unfold onVirtualDeviceUpdate.
  destruct metaData as [type vid]. cbn [dimmableType virtualDeviceId].
  destruct (String.eqb type "Speaker"); [|split; [reflexivity|split; [constructor|now right]]].
  destruct (String.eqb_spec vid "skip") as [->|Hne].
  - split; [|split; [apply skip_updates_own_device | now left]].
    pose proof (skip_handler_events cfg "skip" values s) as H. cbv zeta in H.
    destruct H as [(H & _) | (H & _)]; exact H.
  - split; [|split; [apply twist_updates_own_device | now left]].
    run_script; reflexivity.
Qed.
(** ** Further properties: responses, waiting time, action messages *)

(** X26: a fulfilled response is normalised.  Whatever the HTTP client
    hands over, the status of the value is never 0 (a missing or zero
    status code becomes 200) and its status message is never empty (it
    becomes [OK]); when the client hands over no result at all the value
    is status 200, an empty body, no headers and the message [OK]. *)
Theorem fulfilled_response_is_normalised (o : NetOutcome) (response : Response) :
  settle o = Fulfilled response ->
  status (data response) <> 0 /\
  statusMessage (data response) <> "" /\
  (forall delay, o = Callback delay None None ->
   data response = {| status := 200; body := Empty; headers := []; statusMessage := "OK" |}).
Proof.
  destruct o as [|d e res]; cbn [settle]; [discriminate|].
  destruct (5000 <=? d); [discriminate|].
  destruct e as [e|]; cbn [makeRequest_callback]; [discriminate|].
  intros H. injection H as <-. cbn [data status statusMessage].
  split; [|split].
  - destruct res as [res|]; cbn [r_statusCode r_status or_number].
    + destruct (r_statusCode res) as [n|]; cbn [or_number].
      * destruct (Z.eqb_spec n 0); [|assumption].
        destruct (r_status res) as [m|]; cbn [or_number]; [|discriminate].
        destruct (Z.eqb_spec m 0); [discriminate | assumption].
      * destruct (r_status res) as [m|]; cbn [or_number]; [|discriminate].
        destruct (Z.eqb_spec m 0); [discriminate | assumption].
    + discriminate.
  - destruct res as [res|]; cbn [r_statusMessage or_string]; [|discriminate].
    destruct (r_statusMessage res) as [m|]; cbn [or_string]; [|discriminate].
    destruct (String.eqb_spec m ""); [discriminate | assumption].
  - intros delay H. injection H as _ ->. reflexivity.
Qed.

Lemma fulfilled_response_is_normalised_witness :
  exists response,
    settle (Callback 20 None None) = Fulfilled response /\
    data response = {| status := 200; body := Empty; headers := []; statusMessage := "OK" |}.
Proof.
  eexists. split; [reflexivity|].
  eapply (fulfilled_response_is_normalised (Callback 20 None None)); reflexivity.
Defined.


(** X28: an action message can never make the script throw.  The
    handler the dispatcher calls is not awaited, but whatever the
    message and whatever the receiver answers, its run ends normally, so
    no rejection is left unhandled; and no action message changes the
    variable [currentVolume]. *)
Theorem action_messages_never_throw cfg message s :
  result (onActionMessage cfg message s) = Normal tt /\
  currentVolume (state (onActionMessage cfg message s)) = currentVolume s.
Proof.
  unfold onActionMessage.
  set (parts := split_space (toLowerCase message)).
  set (d := hd "" parts). set (a := join " " (tl parts)).
  destruct (Nat.leb 2 (List.length parts));
    [|unfold bind, console_log, emit; cbn; split; reflexivity].
  destruct (find_speaker cfg d) as [speaker|] eqn:F;
    [|unfold bind, console_log, emit; cbn; split; reflexivity].
  repeat match goal with
         | |- context [if String.eqb a ?x then _ else _] => destruct (String.eqb a x)
         end.
  all: split; run_script; reflexivity.
Qed.
